(** * Azure ML cheat sheet: the pipeline script and the privacy script

    The repository holds two sequential scripts, [06_pipeline.py] and
    [11_privacy.py].  Each one is a straight line of calls against the
    workspace SDK, an HTTP endpoint and a noise engine.  The scripts are
    embedded as programs of a state-and-exception monad whose state is the
    world the script talks to; every call the script makes is appended to a
    trace kept in that world, with the arguments the source passes. *)

From Stdlib Require Import PrimFloat.
From stdpp Require Import gmap strings list pretty.

Set Warnings "-register-all,-inexact-float".

Open Scope string_scope.
Open Scope list_scope.

(** ** Python values and exceptions *)

(** Python's [float] is IEEE 754 binary64, as is [PrimFloat.float]. *)
Abbreviation pyfloat := PrimFloat.float.

(** The exceptions a script can end with: the Python built-in ones raised
    by indexing and attribute access, and the error taxonomy (a) to (e) of
    the design ([PrivacyParameterError] is named by it; no statement of
    either script raises it). *)
Inductive exn : Type :=
  | AuthenticationError
  | DependencyError
  | RemoteExecutionFailure
  | NetworkError
  | PrivacyParameterError
  | AttributeError (attr : string)
  | KeyError (key : string)
  | IndexError
  | TypeError.

(** How a script ends: it runs to its last statement, it stops on an
    uncaught exception, or it sits in a call that never returns. *)
Inductive result (A : Type) : Type :=
  | Returned (a : A)
  | Raised (e : exn)
  | Blocked.
Arguments Returned {A} a.
Arguments Raised {A} e.
Arguments Blocked {A}.

(** ** The script monad *)

Definition M (W A : Type) : Type := W -> result A * W.

#[global] Instance M_ret {W} : MRet (M W) :=
  fun A (a : A) w => (Returned a, w).

#[global] Instance M_bind {W} : MBind (M W) :=
  fun A B (k : A -> M W B) (m : M W A) w =>
    match m w with
    | (Returned a, w') => k a w'
    | (Raised e, w') => (Raised e, w')
    | (Blocked, w') => (Blocked, w')
    end.

Definition raise {W A} (e : exn) : M W A := fun w => (Raised e, w).

Definition gets {W A} (f : W -> A) : M W A := fun w => (Returned (f w), w).

Definition modify {W} (f : W -> W) : M W unit := fun w => (Returned tt, f w).

(** A computation that ends as [r] says, whatever the world. *)
Definition settle {W A} (r : result A) : M W A := fun w => (r, w).

(** [or_raise o e]: the value of [o], or the exception [e] when Python
    finds nothing there. *)
Definition or_raise {W A} (o : option A) (e : exn) : M W A :=
  match o with
  | Some a => mret a
  | None => raise e
  end.

(** [wp m Q w]: started in the world [w], the program [m] ends in a way and
    in a world that satisfy [Q]. *)
Definition wp {W A} (m : M W A) (Q : result A -> W -> Prop) (w : W) : Prop :=
  Q (fst (m w)) (snd (m w)).

(** [for x in xs: body]. *)
Fixpoint for_each {W A} (xs : list A) (body : A -> M W unit) : M W unit :=
  match xs with
  | [] => mret tt
  | x :: xs' => body x;; for_each xs' body
  end.

(** Python's [range(start, stop, step)] for a positive step; [fuel] bounds
    the number of elements. *)
Fixpoint range_from (fuel : nat) (start stop step : Z) : list Z :=
  match fuel with
  | O => []
  | S fuel' =>
      if (start <? stop)%Z then start :: range_from fuel' (start + step)%Z stop step
      else []
  end.

Definition range (start stop step : Z) : list Z :=
  range_from (Z.to_nat (stop - start)) start stop step.

(** * [11_privacy.py]: differentially private statistics *)

Module Privacy.

(** ** Data *)

Section Script.

(** The type of a table cell. *)
Context {cell : Type}.

(** The table behind the name ['diabetes dataset']: a header and rows. *)
Record dataframe : Type := {
  columns : list string;
  rows : list (list cell)
}.

(** A column as the script reads it ([data['Age']], [data.Age]): one entry
    per row, empty where the row is too short. *)
Definition series : Type := list (option cell).

(** [len(data)]. *)
Definition len (data : dataframe) : Z := Z.of_nat (length (rows data)).

(** [data[name]]; [None] where pandas raises [KeyError]. *)
Definition getitem (data : dataframe) (name : string) : option series :=
  match list_find (fun c => c = name) (columns data) with
  | Some (i, _) => Some ((fun r : list cell => r !! i) <$> rows data)
  | None => None
  end.

(** What the scripts print and plot. *)
Inductive pyval : Type :=
  | PNone
  | PStr (s : string)
  | PInt (n : Z)
  | PFloat (x : pyfloat)
  | PList (l : list pyval)
  | PFormat (template : string) (args : list pyval).

(** [v[i]] on a Python value. *)
Definition subscript (v : pyval) (i : nat) : exn + pyval :=
  match v with
  | PList l =>
      match l !! i with
      | Some x => inr x
      | None => inl IndexError
      end
  | _ => inl TypeError
  end.

(** The keyword arguments of [sn.dp_mean] (lines 47 to 53). *)
Record dp_mean_args : Type := {
  mean_data : series;
  mean_epsilon : pyfloat;
  data_lower : pyfloat;
  data_upper : pyfloat;
  data_rows : Z
}.

(** The arguments of [sn.dp_histogram] and of the [sn.to_int] around its
    data (lines 69 to 75). *)
Record dp_histogram_args : Type := {
  hist_data : series;
  to_int_lower : Z;
  to_int_upper : Z;
  edges : list Z;
  upper : Z;
  null_value : Z;
  hist_epsilon : pyfloat
}.

(** The keyword arguments of [sn.dp_covariance] (lines 102 to 111). *)
Record dp_covariance_args : Type := {
  cov_left : series;
  cov_right : series;
  cov_epsilon : pyfloat;
  left_lower : pyfloat;
  left_upper : pyfloat;
  left_rows : Z;
  right_lower : pyfloat;
  right_upper : pyfloat;
  right_rows : Z
}.

(** A query registered in an [sn.Analysis]. *)
Inductive component : Type :=
  | DpMean (a : dp_mean_args)
  | DpHistogram (a : dp_histogram_args)
  | DpCovariance (a : dp_covariance_args).

(** What the script does that can be seen from outside, in order. *)
Inductive event : Type :=
  | WorkspaceFromConfig
  | DatasetsGet (name : string)
  | Release (queries : list component)
  | SeriesMean (s : series)
  | SeriesCov (s other : series)
  | PltHist (s : series) (bins : list Z)
  | Plt (call : string) (args : list pyval) (kwargs : list (string * pyval))
  | Print (args : list pyval).

(** ** The world of the script

    The workspace and the noise engine are outside the script.  The
    registered datasets may change between two requests, and the engine
    draws fresh noise at every release: both are indexed by a counter. *)
Record world : Type := {
  workspace_name : option string;
  registered : nat -> gmap string dataframe;
  requests : nat;
  engine : nat -> component -> pyval;
  releases : nat;
  trace : list event
}.

(** The aggregations of pandas and matplotlib that give the true values. *)
Context (series_mean : series -> pyval)
        (series_cov : series -> series -> pyval)
        (plt_hist : series -> list Z -> pyval).

(** The three ways the script changes its world: it adds an event to the
    trace, it has sent one more request, the engine has released once more. *)
Definition log (e : event) (w : world) : world :=
  {| workspace_name := workspace_name w; registered := registered w;
     requests := requests w; engine := engine w; releases := releases w;
     trace := trace w ++ [e] |}.

Definition next_request (w : world) : world :=
  {| workspace_name := workspace_name w; registered := registered w;
     requests := S (requests w); engine := engine w; releases := releases w;
     trace := trace w |}.

Definition next_release (w : world) : world :=
  {| workspace_name := workspace_name w; registered := registered w;
     requests := requests w; engine := engine w; releases := S (releases w);
     trace := trace w |}.

Definition emit (e : event) : M world unit := modify (log e).

(** [Workspace.from_config()] followed by [ws.name]. *)
Definition Workspace_from_config : M world string :=
  emit WorkspaceFromConfig;;
  name ← gets workspace_name;
  or_raise name AuthenticationError.

(** [ws.datasets.get(name)]: a request to the workspace, answered with the
    dataset registered at that moment, or with Python's [None]. *)
Definition datasets_get (name : string) : M world (option dataframe) :=
  emit (DatasetsGet name);;
  now ← gets requests;
  found ← gets (fun w => registered w now !! name);
  modify next_request;;
  mret found.

(** [analysis.release()]: the noise engine runs the queries registered in
    the analysis; afterwards each query's [.value] is set. *)
Definition release (queries : list component) : M world (list pyval) :=
  emit (Release queries);;
  draw ← gets releases;
  answer ← gets (fun w => engine w draw <$> queries);
  modify next_release;;
  mret answer.

Definition print (args : list pyval) : M world unit := emit (Print args).

Definition plt (call : string) (args : list pyval)
    (kwargs : list (string * pyval)) : M world unit :=
  emit (Plt call args kwargs).

(** [s.mean()], [s.cov(other)] and [plt.hist(s, bins=bins, ...)[0]]. *)
Definition mean (s : series) : M world pyval :=
  emit (SeriesMean s);; mret (series_mean s).

Definition cov (s other : series) : M world pyval :=
  emit (SeriesCov s other);; mret (series_cov s other).

Definition hist (s : series) (bins : list Z) : M world pyval :=
  emit (PltHist s bins);; mret (plt_hist s bins).

(** [query.value] once the analysis holding the one query is released. *)
Definition value (released : list pyval) : pyval :=
  default PNone (released !! 0%nat).

(** [v[i]] inside the script. *)
Definition index (v : pyval) (i : nat) : M world pyval :=
  match subscript v i with
  | inr x => mret x
  | inl e => raise e
  end.

(** The literals of the script that parametrise the privacy of a query:
    the privacy budgets and the clamping bounds. *)
Record settings : Type := {
  age_range : pyfloat * pyfloat;
  mean_privacy_usage : pyfloat;
  hist_bounds : Z * Z;
  hist_privacy_usage : pyfloat;
  cov_privacy_usage : pyfloat;
  cov_left_bounds : pyfloat * pyfloat;
  cov_right_bounds : pyfloat * pyfloat
}.

(** The values written in the source (lines 39, 49, 70, 74, 105 to 110). *)
Definition script_settings : settings := {|
  age_range := (0.0, 120.0)%float;
  mean_privacy_usage := 0.5%float;
  hist_bounds := (0, 120)%Z;
  hist_privacy_usage := 0.5%float;
  cov_privacy_usage := 1.0%float;
  cov_left_bounds := (0.0, 120.0)%float;
  cov_right_bounds := (0.0, 150.0)%float
|}.

(** ** The script, statement by statement *)

Definition run (s : settings) : M world unit :=
  (* lines 9 and 10 *)
  ws_name ← Workspace_from_config;
  print [PStr ws_name; PStr "loaded"];;
  (* line 14 *)
  fetched ← datasets_get "diabetes dataset";
  (* line 38: the first use of [data] *)
  data ← or_raise fetched (AttributeError "columns");
  let cols := columns data in
  (* lines 39 and 40 *)
  let age_range := age_range s in
  let samples := len data in
  (* lines 42 to 55 *)
  age_dt ← or_raise (getitem data "Age") (KeyError "Age");
  let age_mean :=
    DpMean {| mean_data := age_dt;
              mean_epsilon := mean_privacy_usage s;
              data_lower := fst age_range;
              data_upper := snd age_range;
              data_rows := samples |} in
  age_mean ← release [age_mean];
  (* lines 58 and 59 *)
  let ages := range 0 130 10 in
  age ← or_raise (getitem data "Age") (AttributeError "Age");
  (* lines 62 to 65 *)
  print [PStr "Private mean age:"; value age_mean];;
  data_Age ← or_raise (getitem data "Age") (AttributeError "Age");
  actual ← mean data_Age;
  print [PStr "Actual mean age:"; actual];;
  (* lines 68 to 77 *)
  hist_dt ← or_raise (getitem data "Age") (KeyError "Age");
  let age_histogram :=
    DpHistogram {| hist_data := hist_dt;
                   to_int_lower := fst (hist_bounds s);
                   to_int_upper := snd (hist_bounds s);
                   edges := ages;
                   upper := 10000;
                   null_value := -1;
                   hist_epsilon := hist_privacy_usage s |} in
  age_histogram ← release [age_histogram];
  (* lines 80 to 85 *)
  n_age ← hist age ages;
  plt "grid" [] [("axis", PStr "y"); ("alpha", PFloat 0.75)];;
  plt "xlabel" [PStr "Age"] [];;
  plt "ylabel" [PStr "Frequency"] [];;
  plt "title" [PStr "True Age Distribution"] [];;
  plt "show" [] [];;
  (* lines 88 to 98 *)
  plt "ylim" [PList [PInt 0; PInt 7000]] [];;
  let width := 4%Z in
  let agecat_left := (fun x => x + width)%Z <$> ages in
  let agecat_right := (fun x => x + 2 * width)%Z <$> ages in
  plt "bar" [PList (PInt <$> range 0 120 10); n_age]
      [("width", PInt width); ("color", PStr "blue"); ("alpha", PFloat 0.7);
       ("label", PStr "True")];;
  plt "bar" [PList (PInt <$> agecat_left); value age_histogram]
      [("width", PInt width); ("color", PStr "orange"); ("alpha", PFloat 0.7);
       ("label", PStr "Private")];;
  plt "legend" [] [];;
  plt "title" [PStr "Histogram of Age"] [];;
  plt "xlabel" [PStr "Age"] [];;
  plt "ylabel" [PStr "Frequency"] [];;
  plt "show" [] [];;
  (* lines 101 to 112 *)
  cov_age ← or_raise (getitem data "Age") (KeyError "Age");
  cov_bp ← or_raise (getitem data "DiastolicBloodPressure")
                     (KeyError "DiastolicBloodPressure");
  let age_bp_cov_scalar :=
    DpCovariance {| cov_left := cov_age;
                    cov_right := cov_bp;
                    cov_epsilon := cov_privacy_usage s;
                    left_lower := fst (cov_left_bounds s);
                    left_upper := snd (cov_left_bounds s);
                    left_rows := 10000;
                    right_lower := fst (cov_right_bounds s);
                    right_upper := snd (cov_right_bounds s);
                    right_rows := 10000 |} in
  age_bp_cov_scalar ← release [age_bp_cov_scalar];
  (* line 113 *)
  row ← index (value age_bp_cov_scalar) 0;
  scalar ← index row 0;
  print [PFormat "Differentially private covariance: {0}" [scalar]];;
  (* line 114 *)
  data_Age ← or_raise (getitem data "Age") (AttributeError "Age");
  data_bp ← or_raise (getitem data "DiastolicBloodPressure")
                      (AttributeError "DiastolicBloodPressure");
  actual ← cov data_Age data_bp;
  print [PStr "Actual covariance"; actual].

(** [11_privacy.py] as it is written. *)
Definition privacy_script : M world unit := run script_settings.

(** ** Reading the trace *)

(** The events a program adds to the trace of the world it starts in. *)
Definition events {A} (m : M world A) (w : world) : list event :=
  drop (length (trace w)) (trace (snd (m w))).

(** The queries handed to the noise engine, in order. *)
Definition released (t : list event) : list component :=
  t ≫= (fun e => match e with Release queries => queries | _ => [] end).

(** The names looked up in the workspace's datasets. *)
Definition fetched (t : list event) : list string :=
  t ≫= (fun e => match e with DatasetsGet name => [name] | _ => [] end).

(** The checks that design names for a query: a positive privacy budget and
    clamping bounds in order. *)
Definition valid_component (q : component) : bool :=
  match q with
  | DpMean a =>
      (0 <? mean_epsilon a)%float && (data_lower a <=? data_upper a)%float
  | DpHistogram a =>
      (0 <? hist_epsilon a)%float && (to_int_lower a <=? to_int_upper a)%Z
  | DpCovariance a =>
      (0 <? cov_epsilon a)%float
      && (left_lower a <=? left_upper a)%float
      && (right_lower a <=? right_upper a)%float
  end.

End Script.

(** ** A small workspace to run the script in *)

Definition three_patients : dataframe (cell := Z) := {|
  columns := ["PatientID"; "DiastolicBloodPressure"; "Age"];
  rows := [[1; 80; 21]; [2; 66; 43]; [3; 92; 57]]%Z
|}.

Definition small_world : world (cell := Z) := {|
  workspace_name := Some "ml-sdk";
  registered := fun _ => {[ "diabetes dataset" := three_patients ]};
  requests := 0;
  engine := fun _ q =>
    match q with
    | DpMean _ => PFloat 40.5
    | DpHistogram _ => PList [PInt 1; PInt 0; PInt 2]
    | DpCovariance _ => PList [PList [PFloat 99.0]]
    end;
  releases := 0;
  trace := []
|}.

Definition no_answer : series (cell := Z) -> pyval := fun _ => PNone.
Definition no_answer2 : series (cell := Z) -> series (cell := Z) -> pyval :=
  fun _ _ => PNone.
Definition no_counts : series (cell := Z) -> list Z -> pyval :=
  fun _ _ => PNone.

(** ** More workspaces: one without the dataset, tables that lack a column,
    an engine that answers the third release with a number *)

Definition empty_workspace : world (cell := Z) := {|
  workspace_name := Some "ml-sdk";
  registered := fun _ => ∅;
  requests := 0;
  engine := engine small_world;
  releases := 0;
  trace := []
|}.

Definition without_ages : dataframe (cell := Z) := {|
  columns := ["PatientID"; "DiastolicBloodPressure"];
  rows := [[1; 80]; [2; 66]]%Z
|}.

Definition ages_only : dataframe (cell := Z) := {|
  columns := ["PatientID"; "Age"];
  rows := [[1; 21]; [2; 43]]%Z
|}.

(** The workspace of [small_world] with [data] as its one dataset. *)
Definition registering (data : dataframe (cell := Z)) : world (cell := Z) := {|
  workspace_name := Some "ml-sdk";
  registered := fun _ => {[ "diabetes dataset" := data ]};
  requests := 0;
  engine := engine small_world;
  releases := 0;
  trace := []
|}.

Definition scalar_engine_world : world (cell := Z) := {|
  workspace_name := Some "ml-sdk";
  registered := fun _ => {[ "diabetes dataset" := three_patients ]};
  requests := 0;
  engine := fun draw q =>
    match draw with
    | 2 => PFloat 99.0
    | _ => engine small_world draw q
    end;
  releases := 0;
  trace := []
|}.

End Privacy.


(** * [06_pipeline.py]: build, run, publish and schedule a pipeline *)

Module Pipeline.

(** ** The pipeline definition *)

(** One element of a step's [arguments] list. *)
Inductive argument : Type :=
  | Flag (text : string)
  | NamedInput (dataset : string) (name : string)
  | Output (slot : string)
  | Input (slot : string)
  | Number (x : pyfloat).

(** [RunConfiguration()] with its two fields set (lines 53 to 55). *)
Record RunConfiguration : Type := {
  target : string;
  environment : string
}.

Record PythonScriptStep : Type := {
  name : string;
  source_directory : string;
  script_name : string;
  arguments : list argument;
  compute_target : string;
  runconfig : RunConfiguration;
  allow_reuse : bool
}.

(** Line 24. *)
Definition cluster_name : string := "ml-sdk-cc".

(** Lines 53 to 55; [registered_env] is what [Environment.get] returned. *)
Definition pipeline_run_config (registered_env : string) : RunConfiguration :=
  {| target := cluster_name; environment := registered_env |}.

(** Line 59: [OutputFileDatasetConfig('prepped_data')]. *)
Definition prepped_data : string := "prepped_data".

(** Line 62. *)
Definition experiment_folder : string := "./experiments".

(** Lines 65 to 76; [diabetes_ds] is what [ws.datasets.get] returned. *)
Definition prep_step (diabetes_ds registered_env : string) : PythonScriptStep :=
  {| name := "Prepare Data";
     source_directory := experiment_folder;
     script_name := "06_data_prep.py";
     arguments := [Flag "--input-data"; NamedInput diabetes_ds "raw_data";
                   Flag "--prepped-data"; Output prepped_data];
     compute_target := cluster_name;
     runconfig := pipeline_run_config registered_env;
     allow_reuse := true |}.

(** Lines 79 to 90. *)
Definition train_step (registered_env : string) : PythonScriptStep :=
  {| name := "Train and Register Model";
     source_directory := experiment_folder;
     script_name := "06_train_model.py";
     arguments := [Flag "--training-data"; Input prepped_data;
                   Flag "--regularization"; Number 0.1];
     compute_target := cluster_name;
     runconfig := pipeline_run_config registered_env;
     allow_reuse := true |}.

(** Line 95. *)
Definition pipeline_steps (diabetes_ds registered_env : string)
    : list PythonScriptStep :=
  [prep_step diabetes_ds registered_env; train_step registered_env].

(** The output slots a step produces and the ones it consumes. *)
Definition produces (s : PythonScriptStep) : list string :=
  arguments s ≫= (fun a => match a with Output slot => [slot] | _ => [] end).

Definition consumes (s : PythonScriptStep) : list string :=
  arguments s ≫= (fun a => match a with Input slot => [slot] | _ => [] end).

(** [depends steps j i]: the step at position [j] consumes a slot that the
    step at position [i] produces. *)
Definition depends (steps : list PythonScriptStep) (j i : nat) : Prop :=
  exists B A slot,
    steps !! j = Some B /\ steps !! i = Some A
    /\ slot ∈ consumes B /\ slot ∈ produces A.

(** Producers come before their consumers. *)
Definition dependency_ordered (steps : list PythonScriptStep) : Prop :=
  forall j i, depends steps j i -> i < j.

(** Every slot a step reads is produced by a step before it. *)
Definition inputs_resolved (steps : list PythonScriptStep) : Prop :=
  forall j B slot,
    steps !! j = Some B -> slot ∈ consumes B ->
    exists i A, i < j /\ steps !! i = Some A /\ slot ∈ produces A.

(** No step depends on itself through a chain of slots. *)
Definition acyclic (steps : list PythonScriptStep) : Prop :=
  forall i, ~ tc (depends steps) i i.

(** ** The recurrence of a schedule *)

(** The keyword arguments of [ScheduleRecurrence] (lines 211 to 216). *)
Record ScheduleRecurrence : Type := {
  frequency : string;
  interval : Z;
  week_days : option (list string);
  time_of_day : option string
}.

(** Lines 211 to 216. *)
Definition recurrence : ScheduleRecurrence :=
  {| frequency := "Week";
     interval := 1;
     week_days := Some ["Monday"];
     time_of_day := Some "00:00" |}.

Definition frequencies : list string :=
  ["Minute"; "Hour"; "Day"; "Week"; "Month"].

Definition weekdays : list string :=
  ["Monday"; "Tuesday"; "Wednesday"; "Thursday"; "Friday"; "Saturday";
   "Sunday"].

Definition mem (x : string) (l : list string) : bool :=
  bool_decide (x ∈ l).

(** The value of a decimal digit. *)
Definition digit (c : Ascii.ascii) : option nat :=
  let n := Ascii.nat_of_ascii c in
  if bool_decide (48 <= n <= 57) then Some (n - 48) else None.

(** ["HH:MM"]: two digits, a colon (code 58), two digits, an hour below 24
    and a minute below 60. *)
Definition is_hhmm (s : string) : bool :=
  match s with
  | String h1 (String h2 (String c (String m1 (String m2 EmptyString)))) =>
      match digit h1, digit h2, digit m1, digit m2 with
      | Some a, Some b, Some x, Some y =>
          bool_decide (Ascii.nat_of_ascii c = 58)
          && bool_decide (10 * a + b < 24) && bool_decide (10 * x + y < 60)
      | _, _, _, _ => false
      end
  | _ => false
  end.

(** The recurrence descriptor as the interface declares it. *)
Definition well_formed (r : ScheduleRecurrence) : bool :=
  mem (frequency r) frequencies
  && bool_decide (0 < interval r)%Z
  && match week_days r with
     | Some days => forallb (fun d => mem d weekdays) days
                    && bool_decide (NoDup days)
     | None => true
     end
  && match time_of_day r with
     | Some t => is_hhmm t
     | None => false
     end.

(** ** Runs, as the platform keeps them *)

Inductive run_status : Type := Queued | Running | Succeeded | Failed | Canceled.

Definition terminal (s : run_status) : bool :=
  match s with
  | Succeeded | Failed | Canceled => true
  | Queued | Running => false
  end.

(** What becomes of a run on the remote compute: the poll at which it
    reaches a terminal state and that state ([None]: it never does), and
    what it leaves behind. *)
Record fate : Type := {
  finishes : option (nat * run_status);
  metrics : gmap string pyfloat;
  log_files : list string;
  output_files : list string
}.

(** The status a poll sees at its [t]-th round. *)
Definition status_at (f : fate) (t : nat) : run_status :=
  match finishes f with
  | Some (k, final) => if bool_decide (t < k) then Running else final
  | None => Running
  end.

Record run : Type := {
  run_experiment : string;
  run_steps : list PythonScriptStep;
  regenerated : bool;
  run_fate : fate
}.

(** ** Waiting for a run

    Modelled from the spec: [wait_for_completion] belongs to the SDK; it
    polls the status of the run until the status is terminal, and gives up
    after [timeout_seconds] rounds when a timeout is passed. *)

Inductive waited : Type :=
  | Done (final : run_status)
  | TimedOut.

(** The poll loop from round [t] on, with [fuel] rounds to go. *)
Fixpoint poll (status : nat -> run_status) (timeout : option nat)
    (fuel t : nat) : option waited :=
  if terminal (status t) then Some (Done (status t))
  else if match timeout with Some limit => (limit <=? t)%nat | None => false end
  then Some TimedOut
  else match fuel with
       | O => None
       | S fuel' => poll status timeout fuel' (S t)
       end.

(** The same loop as a relation: [polls status timeout t r] when the wait
    that is at round [t] returns [r]. *)
Inductive polls (status : nat -> run_status) (timeout : option nat)
    : nat -> waited -> Prop :=
  | polls_done t :
      terminal (status t) = true -> polls status timeout t (Done (status t))
  | polls_timeout t limit :
      terminal (status t) = false -> timeout = Some limit -> limit <= t ->
      polls status timeout t TimedOut
  | polls_again t r :
      terminal (status t) = false ->
      from_option (fun limit => t < limit) True timeout ->
      polls status timeout (S t) r ->
      polls status timeout t r.

(** What the script sees of a wait on a run with the fate [f]: the final
    status, a timeout, or nothing at all. *)
Definition wait (timeout : option nat) (f : fate) : result waited :=
  match finishes f with
  | Some (k, final) =>
      if terminal final then
        match timeout with
        | Some limit => if (k <=? limit)%nat then Returned (Done final)
                        else Returned TimedOut
        | None => Returned (Done final)
        end
      else
        match timeout with
        | Some _ => Returned TimedOut
        | None => Blocked
        end
  | None =>
      match timeout with
      | Some _ => Returned TimedOut
      | None => Blocked
      end
  end.

(** ** What goes over the wire *)

Inductive json : Type :=
  | JStr (s : string)
  | JObj (fields : list (string * json)).

(** [j[key]] on the parsed body of a response. *)
Definition json_get (j : json) (key : string) : option json :=
  match j with
  | JObj fields => snd <$> (snd <$> list_find (fun kv => fst kv = key) fields)
  | JStr _ => None
  end.

(** The keyword arguments of [register_model] (lines 154 to 162). *)
Record model_registration : Type := {
  model_path : string;
  model_name : string;
  tags : list (string * string);
  properties : list (string * pyfloat)
}.

(** The arguments of [Schedule.create] (lines 217 to 223). *)
Record schedule : Type := {
  schedule_name : string;
  description : string;
  pipeline_id : string;
  schedule_experiment_name : string;
  schedule_recurrence : ScheduleRecurrence
}.

(** What a run of the script leaves in the trace, one event per call that
    reaches the workspace, the platform, a run handle, the schedules or the
    network, and one per [print].  What only builds a value in the script is
    no event: [RunConfiguration()], [OutputFileDatasetConfig()],
    [PythonScriptStep()], [InteractiveLoginAuthentication()] and
    [ScheduleRecurrence()] are the records above; [response.json()] is part
    of [requests_post] and [os.walk] reads the files an earlier call wrote.
    Positions and counts in the trace are positions and counts of these
    events. *)
Inductive event : Type :=
  | WorkspaceFromConfig
  | DatasetsGet (dataset : string)
  | EnvironmentGet (env : string)
  | NewPipeline (steps : list PythonScriptStep)
  | NewExperiment (experiment : string)
  | Submit (experiment : string) (steps : list PythonScriptStep)
      (regenerate_outputs : bool)
  | WaitForCompletion (run_id : string) (show_output : bool)
      (timeout_seconds : option nat)
  | GetDetailsWithLogs (run_id : string)
  | GetAllLogs (run_id destination : string)
  | DownloadFiles (run_id prefix output_directory : string)
  | GetMetrics (run_id : string)
  | RegisterModel (run_id : string) (model : model_registration)
  | PublishPipeline (run_id pipeline_name pipeline_description version : string)
  | GetAuthenticationHeader
  | Post (url : string) (headers : list (string * string)) (body : json)
  | ExperimentsGetitem (experiment : string)
  | NewPipelineRun (experiment run_id : string)
  | ScheduleCreate (s : schedule)
  | ScheduleList
  | ExperimentsGet (experiment : string)
  | GetRuns (experiment : string)
  | GetDetails (run_id : string)
  | Print (text : list string).

(** ** The world of the script *)

(** What the script finds and cannot change: the workspace of the local
    configuration, what is registered in it, the credentials, the
    identities the platform hands out and the fate of each run. *)
Record given : Type := {
  workspace_name : option string;
  datasets : gset string;
  environments : gset string;
  auth_header : list (string * string);
  fresh_id : nat -> string;
  fates : nat -> fate
}.

(** The state of the platform: per experiment the identities of its runs,
    newest first; the runs; the published pipelines by endpoint; the
    schedules.  Which steps of a run the platform executes and which it
    reuses is not modelled. *)
Record cloud : Type := {
  experiments : gmap string (list string);
  runs : gmap string run;
  created : nat;
  published : gmap string (string * list PythonScriptStep);
  schedules : list schedule
}.

Record world : Type := {
  env : given;
  platform : cloud;
  files : gmap string (list string);
  trace : list event
}.

Definition log (e : event) (w : world) : world :=
  {| env := env w; platform := platform w; files := files w;
     trace := trace w ++ [e] |}.

Definition on_platform (f : cloud -> cloud) (w : world) : world :=
  {| env := env w; platform := f (platform w); files := files w;
     trace := trace w |}.

Definition write_files (folder : string) (names : list string) (w : world)
    : world :=
  {| env := env w; platform := platform w;
     files := <[folder := names]> (files w); trace := trace w |}.

Definition emit (e : event) : M world unit := modify (log e).

(** The platform creates a run of [steps] in [experiment]: the run gets the
    next identity and the next fate and is put in front of the runs of the
    experiment; [regenerate] is the flag the submission carried. *)
Definition create_run (g : given) (experiment : string)
    (steps : list PythonScriptStep) (regenerate : bool) (c : cloud) : cloud :=
  let id := fresh_id g (created c) in
  let f := fates g (created c) in
  {| experiments :=
       <[experiment := id :: default [] (experiments c !! experiment)]>
         (experiments c);
     runs := <[id := {| run_experiment := experiment; run_steps := steps;
                        regenerated := regenerate;
                        run_fate := f |}]> (runs c);
     created := S (created c);
     published := published c;
     schedules := schedules c |}.

(** [Experiment(workspace=ws, name=name)]: the experiment is created when
    the workspace has none of that name. *)
Definition ensure_experiment (experiment : string) (c : cloud) : cloud :=
  {| experiments :=
       match experiments c !! experiment with
       | Some _ => experiments c
       | None => <[experiment := []]> (experiments c)
       end;
     runs := runs c; created := created c;
     published := published c; schedules := schedules c |}.

Definition endpoint_of (id : string) : string := "https://endpoint/" +:+ id.

Definition publish (g : given) (steps : list PythonScriptStep) (c : cloud)
    : cloud :=
  let id := fresh_id g (created c) in
  {| experiments := experiments c; runs := runs c;
     created := S (created c);
     published := <[endpoint_of id := (id, steps)]> (published c);
     schedules := schedules c |}.

Definition add_schedule (s : schedule) (c : cloud) : cloud :=
  {| experiments := experiments c; runs := runs c;
     created := created c; published := published c;
     schedules := schedules c ++ [s] |}.

(** ** The calls

    Each call fails only in the ways written below.  A network that fails
    ([NetworkError] in the design) and a platform that turns a request down
    for a reason of its own are outside the model: what is proved about the
    calls a run makes holds of every run as far as it gets, what is proved
    about the way a run ends holds for a platform that answers. *)

(** [Workspace.from_config()] followed by [ws.name]. *)
Definition Workspace_from_config : M world string :=
  emit WorkspaceFromConfig;;
  found ← gets (fun w => workspace_name (env w));
  or_raise found AuthenticationError.

(** [ws.datasets.get(dataset)]: the dataset, or Python's [None]. *)
Definition datasets_get (dataset : string) : M world (option string) :=
  emit (DatasetsGet dataset);;
  gets (fun w =>
    if bool_decide (dataset ∈ datasets (env w)) then Some dataset else None).

Definition Environment_get (name : string) : M world string :=
  emit (EnvironmentGet name);;
  known ← gets (fun w => bool_decide (name ∈ environments (env w)));
  if known : bool then mret name else raise (KeyError name).

(** Every slot read is written by a step before; [earlier] holds the slots
    written so far. *)
Fixpoint resolved (earlier : list string) (steps : list PythonScriptStep)
    : bool :=
  match steps with
  | [] => true
  | s :: rest =>
      forallb (fun slot => mem slot earlier) (consumes s)
      && resolved (produces s ++ earlier) rest
  end.

(** [Pipeline(workspace=ws, steps=steps)]: the builder refuses a definition
    with an input that no earlier step produces. *)
Definition Pipeline_new (steps : list PythonScriptStep)
    : M world (list PythonScriptStep) :=
  emit (NewPipeline steps);;
  if resolved [] steps then mret steps else raise DependencyError.

Definition Experiment_new (name : string) : M world string :=
  emit (NewExperiment name);;
  modify (on_platform (ensure_experiment name));;
  mret name.

(** [experiment.submit(pipeline, regenerate_outputs=...)]: returns the
    handle of the new run at once. *)
Definition submit (experiment : string) (pipeline : list PythonScriptStep)
    (regenerate_outputs : bool) : M world string :=
  emit (Submit experiment pipeline regenerate_outputs);;
  id ← gets (fun w => fresh_id (env w) (created (platform w)));
  modify (fun w =>
    on_platform (create_run (env w) experiment pipeline regenerate_outputs) w);;
  mret id.

Definition find_run (run_id : string) : M world run :=
  found ← gets (fun w => runs (platform w) !! run_id);
  or_raise found (KeyError run_id).

(** [run.wait_for_completion(show_output=..., timeout_seconds=...)]; a
    failed run surfaces as [RemoteExecutionFailure]. *)
Definition wait_for_completion (run_id : string) (show_output : bool)
    (timeout_seconds : option nat) : M world waited :=
  emit (WaitForCompletion run_id show_output timeout_seconds);;
  r ← find_run run_id;
  outcome ← settle (wait timeout_seconds (run_fate r));
  match outcome with
  | Done Failed => raise RemoteExecutionFailure
  | _ => mret outcome
  end.

Definition get_details_with_logs (run_id : string) : M world unit :=
  emit (GetDetailsWithLogs run_id).

Definition get_all_logs (run_id destination : string) : M world unit :=
  emit (GetAllLogs run_id destination);;
  r ← find_run run_id;
  modify (write_files destination
            ((fun f => destination +:+ "/" +:+ f) <$> log_files (run_fate r))).

Definition download_files (run_id prefix output_directory : string)
    : M world unit :=
  emit (DownloadFiles run_id prefix output_directory);;
  r ← find_run run_id;
  modify (write_files output_directory
            ((fun f => output_directory +:+ "/" +:+ f)
               <$> List.filter (String.prefix prefix)
                     (output_files (run_fate r)))).

(** The paths [os.walk(folder)] and [os.path.join] give. *)
Definition os_walk (folder : string) : M world (list string) :=
  gets (fun w => default [] (files w !! folder)).

Definition print (text : list string) : M world unit := emit (Print text).

Definition get_metrics (run_id : string) : M world (gmap string pyfloat) :=
  emit (GetMetrics run_id);;
  r ← find_run run_id;
  mret (metrics (run_fate r)).

(** [run.register_model(...)]: the call is logged; what the platform does
    with the registration is not modelled. *)
Definition register_model (run_id : string) (model : model_registration)
    : M world unit :=
  emit (RegisterModel run_id model).

(** [run.publish_pipeline(...)]: the identity and the endpoint of the
    published pipeline. *)
Definition publish_pipeline (run_id pipeline_name pipeline_description
    version : string) : M world (string * string) :=
  emit (PublishPipeline run_id pipeline_name pipeline_description version);;
  r ← find_run run_id;
  id ← gets (fun w => fresh_id (env w) (created (platform w)));
  modify (fun w => on_platform (publish (env w) (run_steps r)) w);;
  mret (id, endpoint_of id).

Definition get_authentication_header : M world (list (string * string)) :=
  emit GetAuthenticationHeader;;
  gets (fun w => auth_header (env w)).

(** What the platform does with a request to [url]: for a published
    endpoint, the right credentials and a body naming an experiment it
    creates a run there and answers with its identity.  The credentials an
    endpoint takes are those of the workspace, which are the ones
    [get_authentication_header] gives the script, and the request always
    arrives. *)
Definition serve (url : string) (headers : list (string * string))
    (body : json) (w : world) : json * world :=
  match published (platform w) !! url, json_get body "ExperimentName" with
  | Some (_, steps), Some (JStr experiment) =>
      if bool_decide (headers = auth_header (env w)) then
        (JObj [("Id", JStr (fresh_id (env w) (created (platform w))))],
         on_platform (create_run (env w) experiment steps false) w)
      else (JObj [("error", JStr "Unauthorized")], w)
  | _, _ => (JObj [("error", JStr "BadRequest")], w)
  end.

(** [requests.post(url, headers=headers, json=body)] followed by
    [response.json()]. *)
Definition requests_post (url : string) (headers : list (string * string))
    (body : json) : M world json :=
  emit (Post url headers body);;
  answer ← gets (fun w => fst (serve url headers body w));
  modify (fun w => snd (serve url headers body w));;
  mret answer.

Definition as_str (j : json) : option string :=
  match j with
  | JStr s => Some s
  | JObj _ => None
  end.

(** [ws.experiments[name]]. *)
Definition experiments_getitem (name : string) : M world string :=
  emit (ExperimentsGetitem name);;
  found ← gets (fun w => experiments (platform w) !! name);
  or_raise found (KeyError name);;
  mret name.

Definition PipelineRun_new (experiment run_id : string) : M world string :=
  emit (NewPipelineRun experiment run_id);;
  mret run_id.

(** [Schedule.create(ws, ...)]: the platform keeps the schedule as it is
    given. *)
Definition Schedule_create (s : schedule) : M world schedule :=
  emit (ScheduleCreate s);;
  modify (on_platform (add_schedule s));;
  mret s.

Definition Schedule_list : M world (list schedule) :=
  emit ScheduleList;;
  gets (fun w => schedules (platform w)).

(** [ws.experiments.get(name)]: the experiment, or Python's [None]. *)
Definition experiments_get (name : string) : M world (option string) :=
  emit (ExperimentsGet name);;
  gets (fun w => (fun _ => name) <$> experiments (platform w) !! name).

(** [list(experiment.get_runs())]: newest first. *)
Definition get_runs (experiment : string) : M world (list string) :=
  emit (GetRuns experiment);;
  gets (fun w => default [] (experiments (platform w) !! experiment)).

Definition get_details (run_id : string) : M world unit :=
  emit (GetDetails run_id).

(** ** The script, section by section *)

(** Line 101. *)
Definition experiment_name : string := "ml-sdk-pipeline".

(** Lines 15 to 97: workspace, dataset, environment and the pipeline. *)
Definition build : M world (list PythonScriptStep) :=
  ws_name ← Workspace_from_config;
  print [ws_name; "loaded"];;
  diabetes_ds ← datasets_get "diabetes dataset";
  registered_env ← Environment_get "experiment_env";
  print ["Run configuration created."];;
  (* line 70: the first use of [diabetes_ds] *)
  diabetes_ds ← or_raise diabetes_ds (AttributeError "as_named_input");
  print ["Pipeline steps defined"];;
  pipeline ← Pipeline_new (pipeline_steps diabetes_ds registered_env);
  print ["Pipeline is built."];;
  mret pipeline.

(** Lines 102 to 114: the experiment, the submission, the wait. *)
Definition run_experiment_section (pipeline : list PythonScriptStep)
    : M world string :=
  experiment ← Experiment_new experiment_name;
  pipeline_run ← submit experiment pipeline true;
  print ["Pipeline submitted for execution."];;
  wait_for_completion pipeline_run true None;;
  mret pipeline_run.

(** Lines 122 to 145: logs and files. *)
Definition troubleshoot (pipeline_run : string) : M world unit :=
  get_details_with_logs pipeline_run;;
  let log_folder := "downloaded-logs" in
  get_all_logs pipeline_run log_folder;;
  paths ← os_walk log_folder;
  for_each paths (fun path => print [path]);;
  let download_folder := "downloaded-files" in
  download_files pipeline_run "outputs" download_folder;;
  paths ← os_walk download_folder;
  for_each paths (fun path => print [path]).

(** Lines 154 to 162. *)
Definition register (pipeline_run : string) : M world unit :=
  run_metrics ← get_metrics pipeline_run;
  auc ← or_raise (run_metrics !! "AUC") (KeyError "AUC");
  run_metrics ← get_metrics pipeline_run;
  accuracy ← or_raise (run_metrics !! "Accuracy") (KeyError "Accuracy");
  register_model pipeline_run
    {| model_path := "outputs/diabetes_model.pkl";
       model_name := "diabetes_model";
       tags := [("Training context", "Script")];
       properties := [("AUC", auc); ("Accuracy", accuracy)] |}.

(** Lines 184 to 207: publish, call the endpoint, wait for the run it
    starts.  Returns the identity of the published pipeline. *)
Definition endpoint (pipeline_run : string) : M world string :=
  published_pipeline ←
    publish_pipeline pipeline_run "diabetes-training-pipeline"
      "Trains diabetes model" "1.0";
  let rest_endpoint := snd published_pipeline in
  print [rest_endpoint];;
  auth_header ← get_authentication_header;
  print ["Authentication header ready."];;
  let rest_endpoint := snd published_pipeline in
  response ←
    requests_post rest_endpoint auth_header
      (JObj [("ExperimentName", JStr experiment_name)]);
  run_id ← or_raise (json_get response "Id") (KeyError "Id");
  run_id ← or_raise (as_str run_id) TypeError;
  experiment ← experiments_getitem experiment_name;
  published_pipeline_run ← PipelineRun_new experiment run_id;
  wait_for_completion published_pipeline_run true None;;
  mret (fst published_pipeline).

(** Lines 211 to 228. *)
Definition schedule_section (published_pipeline_id : string) : M world unit :=
  weekly_schedule ←
    Schedule_create
      {| schedule_name := "weekly-diabetes-training";
         description := "Based on time";
         pipeline_id := published_pipeline_id;
         schedule_experiment_name := "mslearn-diabetes-pipeline";
         schedule_recurrence := recurrence |};
  print ["Pipeline scheduled."];;
  schedules ← Schedule_list;
  mret tt.

(** Lines 231 to 233. *)
Definition latest : M world string :=
  pipeline_experiment ← experiments_get experiment_name;
  pipeline_experiment ← or_raise pipeline_experiment (AttributeError "get_runs");
  all_runs ← get_runs pipeline_experiment;
  latest_run ← or_raise (all_runs !! 0) IndexError;
  get_details latest_run;;
  mret latest_run.

(** The script up to the schedule. *)
Definition before_latest : M world unit :=
  pipeline ← build;
  pipeline_run ← run_experiment_section pipeline;
  troubleshoot pipeline_run;;
  register pipeline_run;;
  published_pipeline_id ← endpoint pipeline_run;
  schedule_section published_pipeline_id.

(** [06_pipeline.py]. *)
Definition pipeline_script : M world string :=
  before_latest;; latest.

(** ** Reading the trace *)

Definition events {A} (m : M world A) (w : world) : list event :=
  drop (length (trace w)) (trace (snd (m w))).

(** The calls among the events: everything but what is printed. *)
Definition without_prints (t : list event) : list event :=
  List.filter (fun e => match e with Print _ => false | _ => true end) t.

(** The calls of a run of the script that reaches its last statement, given
    the identities the platform hands out for the first run ([run0]), the
    published pipeline ([pipeline]) and the run started through the
    endpoint ([run1]), the credentials and the two metrics. *)
Definition script_calls (run0 pipeline run1 : string)
    (credentials : list (string * string)) (auc accuracy : pyfloat)
    : list event :=
  [ WorkspaceFromConfig;
    DatasetsGet "diabetes dataset";
    EnvironmentGet "experiment_env";
    NewPipeline (pipeline_steps "diabetes dataset" "experiment_env");
    NewExperiment experiment_name;
    Submit experiment_name
      (pipeline_steps "diabetes dataset" "experiment_env") true;
    WaitForCompletion run0 true None;
    GetDetailsWithLogs run0;
    GetAllLogs run0 "downloaded-logs";
    DownloadFiles run0 "outputs" "downloaded-files";
    GetMetrics run0;
    GetMetrics run0;
    RegisterModel run0
      {| model_path := "outputs/diabetes_model.pkl";
         model_name := "diabetes_model";
         tags := [("Training context", "Script")];
         properties := [("AUC", auc); ("Accuracy", accuracy)] |};
    PublishPipeline run0 "diabetes-training-pipeline" "Trains diabetes model"
      "1.0";
    GetAuthenticationHeader;
    Post (endpoint_of pipeline) credentials
      (JObj [("ExperimentName", JStr experiment_name)]);
    ExperimentsGetitem experiment_name;
    NewPipelineRun experiment_name run1;
    WaitForCompletion run1 true None;
    ScheduleCreate
      {| schedule_name := "weekly-diabetes-training";
         description := "Based on time";
         pipeline_id := pipeline;
         schedule_experiment_name := "mslearn-diabetes-pipeline";
         schedule_recurrence := recurrence |};
    ScheduleList;
    ExperimentsGet experiment_name;
    GetRuns experiment_name;
    GetDetails run1 ].

(** ** A small workspace to run the script in *)

Definition good_fate : fate :=
  {| finishes := Some (3, Succeeded);
     metrics := {[ "AUC" := 0.875%float; "Accuracy" := 0.75%float ]};
     log_files := ["logs/70_driver_log.txt"];
     output_files := ["outputs/diabetes_model.pkl"; "logs/azureml.log"] |}.

Definition small_given : given :=
  {| workspace_name := Some "ml-sdk";
     datasets := {[ "diabetes dataset" ]};
     environments := {[ "experiment_env" ]};
     auth_header := [("Authorization", "Bearer token")];
     fresh_id := fun n => "id-" +:+ pretty n;
     fates := fun _ => good_fate |}.

Definition empty_cloud : cloud :=
  {| experiments := ∅; runs := ∅; created := 0;
     published := ∅; schedules := [] |}.

Definition small_world : world :=
  {| env := small_given; platform := empty_cloud; files := ∅; trace := [] |}.

(** ** The run of the script in short *)

(** What [wait_for_completion] gives for a run of fate [f]. *)
Definition joined (timeout : option nat) (f : fate) : result waited :=
  match wait timeout f with
  | Returned (Done Failed) => Raised RemoteExecutionFailure
  | r => r
  end.

(** How a run of the script ends and how many calls it makes, read off the
    workspace [g] and the number [c] of identities handed out before. *)
Definition summary (g : given) (c : nat) : result string * nat :=
  let fate0 := fates g c in
  let fate1 := fates g (S (S c)) in
  match workspace_name g with
  | None => (Raised AuthenticationError, 1)
  | Some _ =>
  if negb (bool_decide ("experiment_env" ∈ environments g))
  then (Raised (KeyError "experiment_env"), 3)
  else if negb (bool_decide ("diabetes dataset" ∈ datasets g))
  then (Raised (AttributeError "as_named_input"), 3)
  else
  match joined None fate0 with
  | Raised e => (Raised e, 7)
  | Blocked => (Blocked, 7)
  | Returned _ =>
  match metrics fate0 !! "AUC", metrics fate0 !! "Accuracy" with
  | None, _ => (Raised (KeyError "AUC"), 11)
  | Some _, None => (Raised (KeyError "Accuracy"), 12)
  | Some _, Some _ =>
  match joined None fate1 with
  | Raised e => (Raised e, 19)
  | Blocked => (Blocked, 19)
  | Returned _ => (Returned (fresh_id g (S (S c))), 24)
  end end end end.

(** The calls of a run from [w] that reaches the last statement: the
    platform hands out the next three identities, to the first run, to the
    published pipeline and to the run started through the endpoint. *)
Definition calls_of (w : world) : list event :=
  let g := env w in
  let c := created (platform w) in
  let fate0 := fates g c in
  script_calls (fresh_id g c) (fresh_id g (S c)) (fresh_id g (S (S c)))
    (auth_header g)
    (default 0%float (metrics fate0 !! "AUC"))
    (default 0%float (metrics fate0 !! "Accuracy")).

(** The experiment an event names. *)
Definition experiment_of (e : event) : option string :=
  match e with
  | NewExperiment x | Submit x _ _ | ExperimentsGetitem x
  | NewPipelineRun x _ | ExperimentsGet x | GetRuns x => Some x
  | Post _ _ body => json_get body "ExperimentName" ≫= as_str
  | ScheduleCreate s => Some (schedule_experiment_name s)
  | _ => None
  end.

(** ** More workspaces
    One without the dataset, one whose runs never finish, one whose runs
    fail, one whose runs log one metric only *)

Definition without_dataset : world :=
  {| env := {| workspace_name := Some "ml-sdk";
               datasets := ∅;
               environments := {[ "experiment_env" ]};
               auth_header := [("Authorization", "Bearer token")];
               fresh_id := fun n => "id-" +:+ pretty n;
               fates := fun _ => good_fate |};
     platform := empty_cloud; files := ∅; trace := [] |}.

Definition never_finishing : fate :=
  {| finishes := None; metrics := ∅; log_files := []; output_files := [] |}.

Definition stuck_world : world :=
  {| env := {| workspace_name := Some "ml-sdk";
               datasets := {[ "diabetes dataset" ]};
               environments := {[ "experiment_env" ]};
               auth_header := [("Authorization", "Bearer token")];
               fresh_id := fun n => "id-" +:+ pretty n;
               fates := fun _ => never_finishing |};
     platform := empty_cloud; files := ∅; trace := [] |}.



Definition unscored : fate :=
  {| finishes := Some (2, Succeeded);
     metrics := {[ "AUC" := 0.5%float ]};
     log_files := ["logs/70_driver_log.txt"];
     output_files := [] |}.

Definition unscored_world : world :=
  {| env := {| workspace_name := Some "ml-sdk";
               datasets := {[ "diabetes dataset" ]};
               environments := {[ "experiment_env" ]};
               auth_header := [("Authorization", "Bearer token")];
               fresh_id := fun n => "id-" +:+ pretty n;
               fates := fun _ => unscored |};
     platform := empty_cloud; files := ∅; trace := [] |}.

End Pipeline.

(** * Reasoning about scripts *)

Section WP.

Context {W : Type}.

Lemma wp_ret {A} (a : A) (Q : result A -> W -> Prop) (w : W) :
  Q (Returned a) w -> wp (mret a) Q w.
Proof. done. Qed.

Lemma wp_raise {A} (e : exn) (Q : result A -> W -> Prop) (w : W) :
  Q (Raised e) w -> wp (raise e) Q w.
Proof. done. Qed.

Lemma wp_modify (f : W -> W) (Q : result unit -> W -> Prop) (w : W) :
  Q (Returned tt) (f w) -> wp (modify f) Q w.
Proof. done. Qed.

Lemma wp_or_raise {A} (o : option A) (e : exn) (Q : result A -> W -> Prop)
    (w : W) :
  (forall a, o = Some a -> Q (Returned a) w) ->
  (o = None -> Q (Raised e) w) ->
  wp (or_raise o e) Q w.
Proof. destruct o; unfold wp; cbn; auto. Qed.

(** Sequencing: the rest of the script runs only when the statement
    returns. *)
Lemma wp_bind {A B} (m : M W A) (k : A -> M W B) (Q : result B -> W -> Prop)
    (w : W) :
  wp m (fun r w' =>
          match r with
          | Returned a => wp (k a) Q w'
          | Raised e => Q (Raised e) w'
          | Blocked => Q Blocked w'
          end) w ->
  wp (m ≫= k) Q w.
Proof.
  unfold wp, mbind, M_bind. by destruct (m w) as [[a|e|] w'].
Qed.

Lemma wp_bind_assoc {A B C} (m : M W A) (f : A -> M W B) (k : B -> M W C)
    (Q : result C -> W -> Prop) (w : W) :
  wp (m ≫= (fun a => f a ≫= k)) Q w -> wp ((m ≫= f) ≫= k) Q w.
Proof.
  unfold wp, mbind, M_bind. by destruct (m w) as [[a|e|] w'].
Qed.

Lemma wp_bind_ret {A B} (a : A) (k : A -> M W B) (Q : result B -> W -> Prop)
    (w : W) :
  wp (k a) Q w -> wp (mret a ≫= k) Q w.
Proof. done. Qed.

Lemma wp_bind_raise {A B} (e : exn) (k : A -> M W B)
    (Q : result B -> W -> Prop) (w : W) :
  Q (Raised e) w -> wp (raise e ≫= k) Q w.
Proof. done. Qed.

Lemma wp_bind_gets {A B} (f : W -> A) (k : A -> M W B)
    (Q : result B -> W -> Prop) (w : W) :
  wp (k (f w)) Q w -> wp (gets f ≫= k) Q w.
Proof. done. Qed.

Lemma wp_bind_modify {B} (f : W -> W) (k : unit -> M W B)
    (Q : result B -> W -> Prop) (w : W) :
  wp (k tt) Q (f w) -> wp (modify f ≫= k) Q w.
Proof. done. Qed.

Lemma wp_bind_or_raise {A B} (o : option A) (e : exn) (k : A -> M W B)
    (Q : result B -> W -> Prop) (w : W) :
  (forall a, o = Some a -> wp (k a) Q w) ->
  (o = None -> Q (Raised e) w) ->
  wp (or_raise o e ≫= k) Q w.
Proof.
  destruct o as [a|]; intros Hsome Hnone.
  - by apply (Hsome a).
  - by apply Hnone.
Qed.

End WP.

Lemma wp_elim {W A} (m : M W A) (Q : result A -> W -> Prop) (w : W) :
  wp m Q w -> Q (fst (m w)) (snd (m w)).
Proof. done. Qed.

(** State a goal about the run of [m] from [w] as a [wp]. *)
Ltac to_wp m w :=
  pattern (fst (m w)), (snd (m w));
  lazymatch goal with
  | |- ?Q (fst (m w)) (snd (m w)) => change (wp m Q w)
  end.

(** One statement of a script, from the front. *)
Ltac wp_step :=
  cbv beta zeta;
  lazymatch goal with
  | |- wp ((_ ≫= _) ≫= _) _ _ => apply wp_bind_assoc
  | |- wp (mret _ ≫= _) _ _ => apply wp_bind_ret
  | |- wp (raise _ ≫= _) _ _ => apply wp_bind_raise
  | |- wp (gets _ ≫= _) _ _ => apply wp_bind_gets
  | |- wp (modify _ ≫= _) _ _ => apply wp_bind_modify
  | |- wp (or_raise _ _ ≫= _) _ _ =>
      apply wp_bind_or_raise; [intros ? ?|intros ?]
  | |- wp (mret _) _ _ => apply wp_ret
  | |- wp (raise _) _ _ => apply wp_raise
  | |- wp (modify _) _ _ => apply wp_modify
  | |- wp (or_raise _ _) _ _ => apply wp_or_raise; [intros ? ?|intros ?]
  end.

Module PrivacyFacts.
Import Privacy.

Section Facts.

Context {cell : Type}.
Context (series_mean : series (cell := cell) -> pyval)
        (series_cov : series (cell := cell) -> series (cell := cell) -> pyval)
        (plt_hist : series (cell := cell) -> list Z -> pyval).

Local Abbreviation run := (Privacy.run series_mean series_cov plt_hist).
Local Abbreviation privacy_script :=
  (Privacy.privacy_script series_mean series_cov plt_hist).
Implicit Types (w : world (cell := cell)) (e : event (cell := cell)).

Lemma wp_bind_index {B} (v : pyval) (i : nat) (k : pyval -> M world B)
    (Q : result B -> world -> Prop) w :
  (forall x, subscript v i = inr x -> wp (k x) Q w) ->
  (forall err, subscript v i = inl err -> Q (Raised err) w) ->
  wp (index v i ≫= k) Q w.
Proof.
  unfold index. destruct (subscript v i) as [err|x]; intros Hr Hl.
  - by apply Hl.
  - by apply Hr.
Qed.

Ltac privacy_step :=
  first
    [ wp_step
    | apply wp_bind_index; [intros ? ?|intros ? ?]
    | progress unfold Workspace_from_config, datasets_get, release, print, plt,
        mean, cov, hist, emit ].

(** Run the script on an arbitrary world: one goal per way it can end,
    with the events added to the trace written out. *)
Ltac run_privacy :=
  unfold events;
  lazymatch goal with
  | |- context [Privacy.run ?a ?b ?c ?s ?w] =>
      to_wp (Privacy.run a b c s) w
  end;
  unfold Privacy.run; repeat privacy_step;
  cbn [log next_request next_release workspace_name registered requests
       engine releases trace] in *;
  simplify_eq;
  rewrite <- ?app_assoc, ?drop_app_length; cbn [app]; cbv beta.

(** Split a membership in the events written out into its cases. *)
Ltac elems :=
  intros;
  repeat match goal with H : _ ∈ _ |- _ => progress cbn in H end;
  decompose_list_elem_of; simplify_eq.


Lemma subscript_error (v : pyval) (i : nat) (err : exn) :
  subscript v i = inl err -> err = IndexError \/ err = TypeError.
Proof.
  destruct v as [| | | |l|]; cbn; try (intros [= <-]; by right).
  destruct (l !! i); intros [= <-]. by left.
Qed.

(** C6.  Every noised statistic and its true counterpart are computed from
    the one table fetched by the first statement: the script looks the dataset
    up at most once, and the column handed to each query of the noise engine
    and the column handed to the plain aggregation beside it are columns of
    that table, whatever the workspace registers later.  A run that reaches
    the last statement has made all six computations. *)
Theorem noised_and_true_share_snapshot w (data : dataframe) :
  registered w (requests w) !! "diabetes dataset" = Some data ->
  let t := events privacy_script w in
  length (fetched t) <= 1
  /\ (forall a, DpMean a ∈ released t ->
        getitem data "Age" = Some (mean_data a))
  /\ (forall s, SeriesMean s ∈ t -> getitem data "Age" = Some s)
  /\ (forall a, DpHistogram a ∈ released t ->
        getitem data "Age" = Some (hist_data a))
  /\ (forall s bins, PltHist s bins ∈ t -> getitem data "Age" = Some s)
  /\ (forall a, DpCovariance a ∈ released t ->
        getitem data "Age" = Some (cov_left a)
        /\ getitem data "DiastolicBloodPressure" = Some (cov_right a))
  /\ (forall s other, SeriesCov s other ∈ t ->
        getitem data "Age" = Some s
        /\ getitem data "DiastolicBloodPressure" = Some other)
  /\ (fst (privacy_script w) = Returned tt ->
        exists m h c,
          released t = [DpMean m; DpHistogram h; DpCovariance c]
          /\ SeriesMean (mean_data m) ∈ t
          /\ PltHist (hist_data h) (edges h) ∈ t
          /\ SeriesCov (cov_left c) (cov_right c) ∈ t).
Proof.
  intros Hdata t. subst t. unfold Privacy.privacy_script. run_privacy.
  all: repeat split; cbn; try lia.
  all: elems; try done.
  all: do 3 eexists; split; [reflexivity|]; cbn.
  all: repeat split;
    repeat first [apply list_elem_of_here | apply list_elem_of_further].
Qed.


(** X20.  Every query the script hands to the noise engine carries a
    positive privacy budget and clamping bounds in order, whatever the
    workspace and the engine are: the budgets and the bounds are the literals
    of lines 39, 49, 70, 74 and 105 to 110.  No run ends with
    [PrivacyParameterError], and a run that reaches the last statement has
    handed three queries to the engine. *)
Theorem issued_queries_carry_valid_parameters w :
  let t := events privacy_script w in
  (forall q, q ∈ released t -> valid_component q = true)
  /\ fst (privacy_script w) <> Raised PrivacyParameterError
  /\ (fst (privacy_script w) = Returned tt -> length (released t) = 3).
Proof.
  intros t. subst t. unfold Privacy.privacy_script. run_privacy.
  all: split; [by elems|]; split; [|done].
  all: try discriminate.
  all: match goal with
       | H : subscript _ _ = inl _ |- _ =>
           destruct (subscript_error _ _ _ H) as [-> | ->]; discriminate
       end.
Qed.

(** X12.  [ws.datasets.get] answers a missing dataset with [None] and the
    script does not look at the answer until line 38: in a workspace that
    loads but has no 'diabetes dataset', the script ends with an
    [AttributeError] on [data.columns], having made three calls, and nothing
    is handed to the noise engine. *)
Theorem missing_dataset_reaches_no_engine w (ws_name : string) :
  workspace_name w = Some ws_name ->
  registered w (requests w) !! "diabetes dataset" = None ->
  fst (privacy_script w) = Raised (AttributeError "columns")
  /\ events privacy_script w
     = [WorkspaceFromConfig; Print [PStr ws_name; PStr "loaded"];
        DatasetsGet "diabetes dataset"]
  /\ released (events privacy_script w) = [].
Proof.
  intros Hws Hdata. unfold Privacy.privacy_script.
  assert (Hrun : fst (run script_settings w) = Raised (AttributeError "columns")
                 /\ events (run script_settings) w
                    = [WorkspaceFromConfig; Print [PStr ws_name; PStr "loaded"];
                       DatasetsGet "diabetes dataset"]).
  { run_privacy; done. }
  destruct Hrun as [Hend Hevents]. by rewrite Hend, Hevents.
Qed.

(** X13.  When the table has no 'Age' column the script ends with
    [KeyError] 'Age' at its first [data['Age']] (line 44), before any query
    is handed to the noise engine. *)
Theorem missing_age_column_reaches_no_engine w (ws_name : string)
    (data : dataframe) :
  workspace_name w = Some ws_name ->
  registered w (requests w) !! "diabetes dataset" = Some data ->
  getitem data "Age" = None ->
  fst (privacy_script w) = Raised (KeyError "Age")
  /\ released (events privacy_script w) = [].
Proof.
  intros Hws Hdata Hage. unfold Privacy.privacy_script.
  assert (Hrun : fst (run script_settings w) = Raised (KeyError "Age")
                 /\ events (run script_settings) w
                    = [WorkspaceFromConfig; Print [PStr ws_name; PStr "loaded"];
                       DatasetsGet "diabetes dataset"]).
  { run_privacy; done. }
  destruct Hrun as [Hend Hevents]. by rewrite Hend, Hevents.
Qed.

(** X14.  A table with an 'Age' column and no 'DiastolicBloodPressure'
    column is found out late: the script ends with [KeyError]
    'DiastolicBloodPressure' at line 104, after the mean and the histogram of
    'Age' have been released by the noise engine, and without computing the
    true covariance. *)
Theorem missing_pressure_column_found_late w (ws_name : string)
    (data : dataframe) (age : series) :
  workspace_name w = Some ws_name ->
  registered w (requests w) !! "diabetes dataset" = Some data ->
  getitem data "Age" = Some age ->
  getitem data "DiastolicBloodPressure" = None ->
  fst (privacy_script w) = Raised (KeyError "DiastolicBloodPressure")
  /\ (exists m h,
        released (events privacy_script w) = [DpMean m; DpHistogram h]
        /\ mean_data m = age /\ hist_data h = age)
  /\ (forall s other, SeriesCov s other ∉ events privacy_script w).
Proof.
  intros Hws Hdata Hage Hbp. unfold Privacy.privacy_script.
  run_privacy; try done.
  split; [done|]. split; [by do 2 eexists|].
  intros s other Hin. elems.
Qed.

(** X15.  The private and the true histogram are taken over the same bins:
    the edges handed to [sn.dp_histogram] and the bins handed to [plt.hist]
    are both [list(range(0, 130, 10))], thirteen edges from 0 to 120.  The
    bars of the true counts are drawn at [range(0, 120, 10)], twelve
    positions, those of the private counts at the thirteen edges shifted by
    the bar width. *)
Theorem histograms_share_bin_edges w :
  let t := events privacy_script w in
  let ages := [0; 10; 20; 30; 40; 50; 60; 70; 80; 90; 100; 110; 120]%Z in
  (forall a, DpHistogram a ∈ released t ->
     edges a = ages /\ upper a = 10000%Z /\ null_value a = (-1)%Z)
  /\ (forall s bins, PltHist s bins ∈ t -> bins = ages)
  /\ (forall call args kwargs, Plt call args kwargs ∈ t -> call = "bar" ->
        exists positions heights,
          args = [PList (PInt <$> positions); heights]
          /\ (positions = [0; 10; 20; 30; 40; 50; 60; 70; 80; 90; 100; 110]%Z
              \/ positions = (fun x => x + 4)%Z <$> ages)).
Proof.
  intros t ages. subst t ages. unfold Privacy.privacy_script. run_privacy.
  all: repeat split; elems; try done.
  all: first
    [ by exists [0; 10; 20; 30; 40; 50; 60; 70; 80; 90; 100; 110]%Z;
        eexists; split; [reflexivity|left]
    | by exists ((fun x => x + 4)%Z
                   <$> [0; 10; 20; 30; 40; 50; 60; 70; 80; 90; 100; 110; 120]%Z);
        eexists; split; [reflexivity|right] ].
Qed.

(** X16.  Each private value the script shows is the answer of the noise
    engine to the query released just before, each from a draw of its own:
    the mean printed by the fifth event is the answer of the first draw to
    the mean query, the heights of the orange bars are the answer of the
    second draw to the histogram query, and the covariance printed is entry
    [[0][0]] of the answer of the third draw to the covariance query.  A run
    that reaches the last statement leaves 26 events. *)
Theorem printed_private_values_are_released w :
  let t := events privacy_script w in
  (forall e, t !! 4 = Some e ->
     exists m, t !! 3 = Some (Release [DpMean m])
       /\ e = Print [PStr "Private mean age:";
                     engine w (releases w) (DpMean m)])
  /\ (forall e, t !! 16 = Some e ->
        exists h positions, t !! 7 = Some (Release [DpHistogram h])
          /\ e = Plt "bar"
                   [positions; engine w (S (releases w)) (DpHistogram h)]
                   [("width", PInt 4); ("color", PStr "orange");
                    ("alpha", PFloat 0.7); ("label", PStr "Private")])
  /\ (forall e, t !! 23 = Some e ->
        exists c row v, t !! 22 = Some (Release [DpCovariance c])
          /\ subscript (engine w (S (S (releases w))) (DpCovariance c)) 0
             = inr row
          /\ subscript row 0 = inr v
          /\ e = Print [PFormat "Differentially private covariance: {0}" [v]])
  /\ (fst (privacy_script w) = Returned tt -> length t = 26).
Proof.
  intros t. subst t. unfold Privacy.privacy_script. run_privacy.
  all: split; [|split; [|split]]; try done.
  all: intros e He; simplify_eq/=.
  all: try (by eexists).
  all: try (by do 2 eexists).
  all: by do 3 eexists.
Qed.

(** X17.  [age_bp_cov_scalar.value[0][0]] needs a matrix: when what the
    engine answers at the third release cannot be indexed, the script ends
    with the error of that indexing, after all three queries have been
    released and before the true covariance is computed. *)
Theorem scalar_covariance_answer_raises w (ws_name : string) (data : dataframe)
    (age pressure : series) (err : exn) :
  workspace_name w = Some ws_name ->
  registered w (requests w) !! "diabetes dataset" = Some data ->
  getitem data "Age" = Some age ->
  getitem data "DiastolicBloodPressure" = Some pressure ->
  (forall q, subscript (engine w (S (S (releases w))) q) 0 = inl err) ->
  fst (privacy_script w) = Raised err
  /\ length (released (events privacy_script w)) = 3
  /\ (forall s other, SeriesCov s other ∉ events privacy_script w).
Proof.
  intros Hws Hdata Hage Hbp Hanswer. unfold Privacy.privacy_script.
  run_privacy; try done.
  all: cbn in *; rewrite Hanswer in *; simplify_eq.
  split; [done|]. split; [done|]. intros s other Hin. elems.
Qed.

End Facts.

Lemma noised_and_true_share_snapshot_witness :
  registered small_world (requests small_world) !! "diabetes dataset"
    = Some three_patients
  /\ forall s, SeriesMean s ∈
        events (Privacy.privacy_script no_answer no_answer2 no_counts)
          small_world ->
      getitem three_patients "Age" = Some s.
Proof.
  split; [reflexivity|].
  apply (noised_and_true_share_snapshot no_answer no_answer2 no_counts
           small_world three_patients).
  reflexivity.
Defined.


Lemma missing_dataset_reaches_no_engine_witness :
  fst (Privacy.privacy_script no_answer no_answer2 no_counts empty_workspace)
  = Raised (AttributeError "columns")
  /\ events (Privacy.privacy_script no_answer no_answer2 no_counts)
       empty_workspace
     = [WorkspaceFromConfig; Print [PStr "ml-sdk"; PStr "loaded"];
        DatasetsGet "diabetes dataset"]
  /\ released (events (Privacy.privacy_script no_answer no_answer2 no_counts)
                 empty_workspace) = [].
Proof.
  apply (missing_dataset_reaches_no_engine no_answer no_answer2 no_counts
           empty_workspace "ml-sdk"); reflexivity.
Defined.

Lemma missing_age_column_reaches_no_engine_witness :
  fst (Privacy.privacy_script no_answer no_answer2 no_counts
         (registering without_ages))
  = Raised (KeyError "Age")
  /\ released (events (Privacy.privacy_script no_answer no_answer2 no_counts)
                 (registering without_ages)) = [].
Proof.
  apply (missing_age_column_reaches_no_engine no_answer no_answer2 no_counts
           (registering without_ages) "ml-sdk" without_ages); reflexivity.
Defined.

Lemma missing_pressure_column_found_late_witness :
  fst (Privacy.privacy_script no_answer no_answer2 no_counts
         (registering ages_only))
  = Raised (KeyError "DiastolicBloodPressure")
  /\ (exists m h,
        released (events (Privacy.privacy_script no_answer no_answer2 no_counts)
                    (registering ages_only))
        = [DpMean m; DpHistogram h]
        /\ mean_data m = [Some 21; Some 43]%Z
        /\ hist_data h = [Some 21; Some 43]%Z)
  /\ (forall s other,
        SeriesCov s other
          ∉ events (Privacy.privacy_script no_answer no_answer2 no_counts)
              (registering ages_only)).
Proof.
  apply (missing_pressure_column_found_late no_answer no_answer2 no_counts
           (registering ages_only) "ml-sdk" ages_only); reflexivity.
Defined.

Lemma scalar_covariance_answer_raises_witness :
  fst (Privacy.privacy_script no_answer no_answer2 no_counts
         scalar_engine_world)
  = Raised TypeError
  /\ length (released
               (events (Privacy.privacy_script no_answer no_answer2 no_counts)
                  scalar_engine_world)) = 3
  /\ (forall s other,
        SeriesCov s other
          ∉ events (Privacy.privacy_script no_answer no_answer2 no_counts)
              scalar_engine_world).
Proof.
  apply (scalar_covariance_answer_raises no_answer no_answer2 no_counts
           scalar_engine_world "ml-sdk" three_patients
           [Some 21; Some 43; Some 57]%Z [Some 80; Some 66; Some 92]%Z);
    reflexivity.
Defined.

End PrivacyFacts.

Module PipelineFacts.
Import Pipeline.

Example recurrence_ok : well_formed recurrence = true.
Proof. reflexivity. Qed.

(** *** The pipeline definition *)

Lemma depends_pipeline_steps ds cfg j i :
  depends (pipeline_steps ds cfg) j i -> j = 1 /\ i = 0.
Proof.
  intros (B & A & slot & HB & HA & Hin & Hout).
  destruct j as [|[|j]], i as [|[|i]]; simplify_eq/=;
    cbn in Hin, Hout; decompose_list_elem_of; done.
Qed.

Lemma ordered_acyclic (steps : list PythonScriptStep) :
  dependency_ordered steps -> acyclic steps.
Proof.
  intros Hord. assert (Hlt : forall j i, tc (depends steps) j i -> i < j).
  { induction 1 as [j i H|j k i H _ IH]; [by apply Hord|].
    apply Hord in H. lia. }
  intros i Hi. apply Hlt in Hi. lia.
Qed.

(** X11.  In the list of steps the script hands to [Pipeline], producers
    come before consumers: whenever a step reads a slot that another writes,
    the writer stands earlier; every slot read is written by an earlier
    step; no step depends on itself; and 'Prepare Data', which writes
    [prepped_data], stands before 'Train and Register Model', which reads
    it. *)
Theorem steps_in_dependency_order (diabetes_ds registered_env : string) :
  let steps := pipeline_steps diabetes_ds registered_env in
  dependency_ordered steps
  /\ inputs_resolved steps
  /\ acyclic steps
  /\ resolved [] steps = true
  /\ (exists A B,
        steps !! 0 = Some A /\ steps !! 1 = Some B
        /\ name A = "Prepare Data" /\ name B = "Train and Register Model"
        /\ produces A = [prepped_data] /\ consumes A = []
        /\ consumes B = [prepped_data] /\ depends steps 1 0).
Proof.
  intros steps.
  assert (Hord : dependency_ordered steps).
  { intros j i [-> ->]%depends_pipeline_steps. lia. }
  split; [done|]. split; [|split; [by apply ordered_acyclic|]].
  - intros [|[|j]] B slot HB Hin; simplify_eq/=; cbn in Hin;
      decompose_list_elem_of.
    exists 0, (prep_step diabetes_ds registered_env).
    split; [lia|]. split; [done|]. subst slot. cbn. apply list_elem_of_here.
  - split; [reflexivity|].
    exists (prep_step diabetes_ds registered_env), (train_step registered_env).
    repeat split.
    exists (train_step registered_env), (prep_step diabetes_ds registered_env),
      prepped_data.
    repeat split; cbn; apply list_elem_of_here.
Qed.

(** *** Waiting *)

Lemma poll_never (status : nat -> run_status) :
  (forall t, terminal (status t) = false) ->
  forall fuel t, poll status None fuel t = None.
Proof.
  intros Hrun fuel. induction fuel as [|fuel IH]; intros t; cbn;
    rewrite Hrun; [done|apply IH].
Qed.

Lemma polls_never (status : nat -> run_status) :
  (forall t, terminal (status t) = false) ->
  forall t r, ~ polls status None t r.
Proof.
  intros Hrun t r Hpolls.
  induction Hpolls as [t Hdone|t limit _ [=]|t r _ _ _ IH]; [|done].
  by rewrite Hrun in Hdone.
Qed.

Lemma poll_returns (status : nat -> run_status) timeout n :
  forall t, terminal (status (t + n)) = true ->
  exists r, poll status timeout n t = Some r.
Proof.
  induction n as [|n IH]; intros t Hend.
  - rewrite Nat.add_0_r in Hend. cbn. rewrite Hend. eauto.
  - cbn. destruct (terminal (status t)); [eauto|].
    destruct timeout as [limit|]; [destruct (limit <=? t)%nat; eauto|];
      apply IH; by replace (S t + n) with (t + S n) by lia.
Qed.

Lemma wait_blocked (f : fate) :
  wait None f = Blocked <-> forall t, terminal (status_at f t) = false.
Proof.
  unfold wait, status_at. destruct (finishes f) as [[k final]|]; [|done].
  destruct (terminal final) eqn:Hfinal; split; try done.
  - intros Hrun. specialize (Hrun k). rewrite bool_decide_eq_false_2 in Hrun by lia.
    congruence.
  - intros _ t. by case_bool_decide.
Qed.

(** *** Running the script *)

Lemma wp_bind_settle {W A B} (r : result A) (k : A -> M W B)
    (Q : result B -> W -> Prop) (w : W) :
  (forall a, r = Returned a -> wp (k a) Q w) ->
  (forall e, r = Raised e -> Q (Raised e) w) ->
  (r = Blocked -> Q Blocked w) ->
  wp (settle r ≫= k) Q w.
Proof.
  destruct r as [a|e|]; intros Hret Hraise Hblock.
  - by apply (Hret a).
  - by apply (Hraise e).
  - by apply Hblock.
Qed.

Lemma for_each_print (paths : list string) (w : world) :
  for_each paths (fun path => print [path]) w
  = (Returned tt,
     {| env := env w; platform := platform w; files := files w;
        trace := trace w ++ ((fun path => Print [path]) <$> paths) |}).
Proof.
  revert w. induction paths as [|p paths IH]; intros w; cbn.
  - rewrite app_nil_r. by destruct w.
  - unfold mbind, M_bind, print, emit, modify. cbn. rewrite IH. cbn.
    by rewrite <- app_assoc.
Qed.

Lemma wp_bind_for_each_print {B} (paths : list string) (k : unit -> M world B)
    (Q : result B -> world -> Prop) (w : world) :
  wp (k tt) Q
     {| env := env w; platform := platform w; files := files w;
        trace := trace w ++ ((fun path => Print [path]) <$> paths) |} ->
  wp (for_each paths (fun path => print [path]) ≫= k) Q w.
Proof. unfold wp, mbind, M_bind. by rewrite for_each_print. Qed.

Lemma resolved_pipeline_steps ds cfg : resolved [] (pipeline_steps ds cfg) = true.
Proof. reflexivity. Qed.

Lemma without_prints_app (l k : list event) :
  without_prints (l ++ k) = without_prints l ++ without_prints k.
Proof. apply List.filter_app. Qed.

Lemma without_prints_printed (paths : list string) :
  without_prints ((fun path => Print [path]) <$> paths) = [].
Proof. induction paths; [done|]. by cbn. Qed.

Ltac head_of t :=
  lazymatch t with
  | ?f _ => head_of f
  | _ => t
  end.

Ltac unfold_call m :=
  let h := head_of m in eval cbv beta delta [h] in m.

Lemma wp_bind_surfaced {B} (outcome : waited) (k : waited -> M world B)
    (Q : result B -> world -> Prop) (w : world) :
  (outcome = Done Failed -> Q (Raised RemoteExecutionFailure) w) ->
  (outcome <> Done Failed -> wp (k outcome) Q w) ->
  wp (match outcome with
      | Done Failed => raise RemoteExecutionFailure
      | _ => mret outcome
      end ≫= k) Q w.
Proof.
  intros Hfailed Hother. destruct outcome as [[]|];
    first [by apply Hfailed | by apply Hother].
Qed.

(** *** The platform *)

Lemma runs_create_run g x steps b c :
  runs (create_run g x steps b c) !! fresh_id g (created c)
  = Some {| run_experiment := x; run_steps := steps; regenerated := b;
            run_fate := fates g (created c) |}.
Proof. apply lookup_insert_eq. Qed.

Lemma experiments_create_run g x steps b c :
  experiments (create_run g x steps b c) !! x
  = Some (fresh_id g (created c) :: default [] (experiments c !! x)).
Proof. apply lookup_insert_eq. Qed.

Lemma published_publish g steps c :
  published (publish g steps c) !! endpoint_of (fresh_id g (created c))
  = Some (fresh_id g (created c), steps).
Proof. apply lookup_insert_eq. Qed.

Lemma json_get_field (key : string) (v : json) (rest : list (string * json)) :
  json_get (JObj ((key, v) :: rest)) key = Some v.
Proof. unfold json_get. cbn. by rewrite decide_True. Qed.

(** A request to a published endpoint with the right credentials and a body
    that names an experiment starts a run there. *)
Lemma serve_published url id steps headers x rest (w : world) :
  published (platform w) !! url = Some (id, steps) ->
  headers = auth_header (env w) ->
  serve url headers (JObj (("ExperimentName", JStr x) :: rest)) w
  = (JObj [("Id", JStr (fresh_id (env w) (created (platform w))))],
     on_platform (create_run (env w) x steps false) w).
Proof.
  intros Hpub ->. unfold serve. rewrite Hpub, json_get_field.
  by rewrite bool_decide_eq_true_2.
Qed.

Lemma wp_bind_post_published {B} url id steps headers x
    (k : json -> M world B) (Q : result B -> world -> Prop) (w : world) :
  published (platform w) !! url = Some (id, steps) ->
  headers = auth_header (env w) ->
  wp (k (JObj [("Id", JStr (fresh_id (env w) (created (platform w))))])) Q
     (on_platform (create_run (env w) x steps false)
        (log (Post url headers (JObj [("ExperimentName", JStr x)])) w)) ->
  wp (requests_post url headers (JObj [("ExperimentName", JStr x)]) ≫= k) Q w.
Proof.
  intros Hpub Hauth Hk. unfold requests_post, emit. repeat wp_step.
  by rewrite (serve_published url id steps headers x []
                (log (Post url headers (JObj [("ExperimentName", JStr x)])) w)).
Qed.

Lemma wp_bind_found {W A B} (a : A) (e : exn) (k : A -> M W B)
    (Q : result B -> W -> Prop) (w : W) :
  wp (k a) Q w -> wp (or_raise (Some a) e ≫= k) Q w.
Proof. done. Qed.

Ltac normalize_world :=
  cbn [env platform files trace log on_platform write_files fst snd
       experiments runs publish add_schedule
       fmap option_fmap option_map from_option id lookup list_lookup as_str]
  ;
  rewrite ?runs_create_run, ?experiments_create_run, ?published_publish,
    ?json_get_field.

Ltac pipeline_step :=
  cbv beta zeta;
  lazymatch goal with
  | |- wp (settle _ ≫= _) _ _ =>
      apply wp_bind_settle; [intros ? ?|intros ? ?|intros ?]
  | |- wp (for_each _ _ ≫= _) _ _ => apply wp_bind_for_each_print
  | |- wp ((if resolved _ _ then _ else _) ≫= _) _ _ =>
      rewrite resolved_pipeline_steps; cbv iota
  | |- wp ((if ?b then _ else _) ≫= _) _ _ => destruct b eqn:?
  | |- wp (if ?b then _ else _) _ _ => destruct b eqn:?
  | |- wp (match ?o with Done _ => _ | TimedOut => _ end ≫= _) _ _ =>
      apply wp_bind_surfaced; intros ?
  | |- wp (gets _) _ _ => unfold wp, gets; cbn [fst snd]
  | |- wp (gets _ ≫= _) _ _ => apply wp_bind_gets; normalize_world
  | |- wp (or_raise _ _ ≫= _) _ _ =>
      normalize_world;
      lazymatch goal with
      | |- wp (or_raise (Some _) _ ≫= _) _ _ => apply wp_bind_found
      | |- _ => apply wp_bind_or_raise; [intros ? ?|intros ?]
      end
  | |- wp (requests_post _ _ (JObj [("ExperimentName", JStr _)]) ≫= _) _ _ =>
      normalize_world;
      eapply wp_bind_post_published;
        [normalize_world; first [apply published_publish|reflexivity]
        |reflexivity|]
  | |- wp (?m ≫= ?k) ?Q ?w =>
      first [ wp_step
            | let m' := unfold_call m in
              progress change (wp (m' ≫= k) Q w) ]
  | |- wp ?m ?Q ?w =>
      first [ wp_step
            | let m' := unfold_call m in
              progress change (wp m' Q w) ]
  end.

Ltac leaf :=
  cbn [env platform files trace log on_platform write_files fst snd
       created ensure_experiment create_run publish add_schedule
       run_fate run_steps] in *;
  repeat case_bool_decide; simplify_eq;
  rewrite <- ?app_assoc, ?drop_app_length.

Lemma script_run (w : world) :
  fst (pipeline_script w) = fst (summary (env w) (created (platform w)))
  /\ without_prints (events pipeline_script w)
     = take (snd (summary (env w) (created (platform w)))) (calls_of w).
Proof.
  unfold events. to_wp pipeline_script w.
  do 400 (try pipeline_step).
  all: leaf.
  all: unfold summary, joined, calls_of;
    repeat match goal with
      | H : ?x = _ |- context [?x] => rewrite H
      | H : _ ∈ _ |- _ => rewrite (bool_decide_eq_true_2 _ H)
      | H : _ ∉ _ |- _ => rewrite (bool_decide_eq_false_2 _ H)
      end;
    rewrite ?without_prints_app, ?without_prints_printed.
  all: repeat match goal with
    | H : ?o <> Done Failed |- _ => destruct o as [[]|]; try done; clear H
    end.
  all: split; reflexivity.
Qed.

Lemma length_calls_of w : length (calls_of w) = 24.
Proof. reflexivity. Qed.

Lemma without_prints_elem (t : list event) (e : event) :
  e ∈ t -> (exists text, e = Print text) \/ e ∈ without_prints t.
Proof.
  intros He. destruct e; try (right; apply list_elem_of_In, List.filter_In;
    split; [by apply list_elem_of_In|done]).
  left. eauto.
Qed.

(** A property of every call of the sequence holds of every event of a run,
    when it holds of what is printed. *)
Lemma all_calls (P : event -> Prop) w :
  (forall text, P (Print text)) ->
  Forall P (calls_of w) ->
  Forall P (events pipeline_script w).
Proof.
  intros Hprint Hcalls. apply Forall_forall. intros e He.
  destruct (without_prints_elem _ _ He) as [[text ->]|Hin]; [done|].
  rewrite (proj2 (script_run w)) in Hin.
  apply elem_of_take in Hin as (i & Hi & _).
  apply list_elem_of_lookup_2 in Hi.
  by eapply Forall_forall in Hcalls.
Qed.

Lemma returned_calls w x :
  fst (pipeline_script w) = Returned x ->
  without_prints (events pipeline_script w) = calls_of w
  /\ x = fresh_id (env w) (S (S (created (platform w)))).
Proof.
  destruct (script_run w) as [Hend Hcalls]. rewrite Hcalls, Hend.
  unfold summary, joined. repeat case_match; try done.
  all: intros [= <-]; cbn [snd]; split; [|done].
  all: by rewrite <- (length_calls_of w), firstn_all.
Qed.

Lemma runs_before_ensure (x : string) (c : cloud) :
  default [] (experiments (ensure_experiment x c) !! x)
  = default [] (experiments c !! x).
Proof.
  cbn [experiments ensure_experiment].
  destruct (experiments c !! x) as [l|] eqn:Hx; [by rewrite Hx|].
  by rewrite lookup_insert_eq.
Qed.

Lemma returned_runs w (x : string) :
  fst (pipeline_script w) = Returned x ->
  experiments (platform (snd (pipeline_script w))) !! experiment_name
  = Some (fresh_id (env w) (S (S (created (platform w))))
            :: fresh_id (env w) (created (platform w))
            :: default [] (experiments (platform w) !! experiment_name)).
Proof.
  to_wp pipeline_script w.
  do 400 (try pipeline_step).
  all: intros Hend; try discriminate Hend.
  cbn [env platform files trace log on_platform write_files fst snd
       experiments publish add_schedule].
  rewrite !experiments_create_run.
  cbn [experiments publish from_option id].
  rewrite !experiments_create_run. cbn [from_option id].
  rewrite runs_before_ensure.
  cbn [created ensure_experiment create_run publish]. reflexivity.
Qed.

(** X1.  Whatever the workspace holds, the events a run of the script
    leaves (what it prints aside) are an initial part of one sequence of 24:
    the calls on the workspace, the experiment, the run handles, the endpoint
    and the schedules, in the order of the source, each with the identity an
    earlier call gave back.  A run that reaches the last statement leaves all
    24; the run it ends with, whose details it fetches last, is the one whose
    handle was built from the answer of the endpoint and waited for second,
    and in the experiment's list of runs it stands in front of the run
    submitted directly. *)
Theorem calls_in_script_order w :
  without_prints (events pipeline_script w) `prefix_of` calls_of w
  /\ (forall x, fst (pipeline_script w) = Returned x ->
        without_prints (events pipeline_script w) = calls_of w
        /\ x = fresh_id (env w) (S (S (created (platform w))))
        /\ (exists run0 pipeline credentials auc accuracy,
              without_prints (events pipeline_script w)
              = script_calls run0 pipeline x credentials auc accuracy)
        /\ experiments (platform (snd (pipeline_script w))) !! experiment_name
           = Some (x :: fresh_id (env w) (created (platform w))
                     :: default []
                          (experiments (platform w) !! experiment_name))).
Proof.
  split.
  - rewrite (proj2 (script_run w)). apply prefix_take.
  - intros x Hx. destruct (returned_calls w x Hx) as [Hcalls ->].
    split; [done|]. split; [done|]. split.
    + rewrite Hcalls. unfold calls_of. by do 5 eexists.
    + by eapply returned_runs.
Qed.

Lemma without_prints_subseteq (t : list event) (e : event) :
  e ∈ without_prints t -> e ∈ t.
Proof.
  intros He. apply list_elem_of_In, List.filter_In in He as [He _].
  by apply list_elem_of_In.
Qed.

Ltac here_or_further :=
  repeat first [apply list_elem_of_here | apply list_elem_of_further].

(** X2.  Every call of the script that names an experiment names
    'ml-sdk-pipeline', except [Schedule.create], which names
    'mslearn-diabetes-pipeline': the schedule is made for another experiment
    than the one the script submits to, posts to and reads the runs of. *)
Theorem schedule_names_another_experiment w :
  Forall (fun e =>
            match e with
            | ScheduleCreate s =>
                schedule_experiment_name s = "mslearn-diabetes-pipeline"
            | _ => forall x, experiment_of e = Some x -> x = "ml-sdk-pipeline"
            end) (events pipeline_script w)
  /\ (forall x, fst (pipeline_script w) = Returned x ->
        exists id steps url headers run_id s,
          Submit "ml-sdk-pipeline" steps true ∈ events pipeline_script w
          /\ Post url headers (JObj [("ExperimentName", JStr "ml-sdk-pipeline")])
               ∈ events pipeline_script w
          /\ NewPipelineRun "ml-sdk-pipeline" run_id ∈ events pipeline_script w
          /\ GetRuns "ml-sdk-pipeline" ∈ events pipeline_script w
          /\ ScheduleCreate s ∈ events pipeline_script w
          /\ pipeline_id s = id
          /\ schedule_experiment_name s <> "ml-sdk-pipeline").
Proof.
  split.
  - apply all_calls; [done|].
    unfold calls_of, script_calls. repeat constructor; by intros x [= <-].
  - intros x Hx. destruct (returned_calls w x Hx) as [Hcalls _].
    do 6 eexists.
    repeat split; try (apply without_prints_subseteq; rewrite Hcalls;
      unfold calls_of, script_calls; here_or_further).
    all: done.
Qed.

(** X3.  [ws.datasets.get] answers a missing dataset with [None] and the
    script does not look at the answer before line 70: in a workspace that
    has the environment and lacks 'diabetes dataset', the script still asks
    for the environment and then ends with an [AttributeError] on
    [as_named_input], before a pipeline is built or anything is submitted. *)
Theorem missing_dataset_surfaces_late w (ws_name : string) :
  workspace_name (env w) = Some ws_name ->
  "experiment_env" ∈ environments (env w) ->
  "diabetes dataset" ∉ datasets (env w) ->
  fst (pipeline_script w) = Raised (AttributeError "as_named_input")
  /\ without_prints (events pipeline_script w)
     = [WorkspaceFromConfig; DatasetsGet "diabetes dataset";
        EnvironmentGet "experiment_env"].
Proof.
  intros Hws Henv Hds. destruct (script_run w) as [Hend Hcalls].
  rewrite Hend, Hcalls. unfold summary. rewrite Hws.
  rewrite (bool_decide_eq_true_2 _ Henv), (bool_decide_eq_false_2 _ Hds).
  done.
Qed.

Lemma missing_dataset_surfaces_late_witness :
  fst (pipeline_script without_dataset) = Raised (AttributeError "as_named_input")
  /\ without_prints (events pipeline_script without_dataset)
     = [WorkspaceFromConfig; DatasetsGet "diabetes dataset";
        EnvironmentGet "experiment_env"].
Proof.
  apply (missing_dataset_surfaces_late without_dataset "ml-sdk").
  - reflexivity.
  - cbn. set_solver.
  - cbn. set_solver.
Defined.

(** X4.  A model is registered only from the run submitted directly and
    only with both of its metrics: the 'AUC' and 'Accuracy' properties are
    what that run logged under these names, read by two calls of
    [get_metrics] on that run. *)
Theorem registered_metrics_of_first_run w (run_id : string)
    (model : model_registration) :
  RegisterModel run_id model ∈ events pipeline_script w ->
  let first := fates (env w) (created (platform w)) in
  run_id = fresh_id (env w) (created (platform w))
  /\ exists auc accuracy,
       metrics first !! "AUC" = Some auc
       /\ metrics first !! "Accuracy" = Some accuracy
       /\ properties model = [("AUC", auc); ("Accuracy", accuracy)]
       /\ model_path model = "outputs/diabetes_model.pkl"
       /\ model_name model = "diabetes_model".
Proof.
  intros Hin first. subst first.
  apply without_prints_elem in Hin as [[text [=]]|Hin].
  destruct (script_run w) as [_ Hcalls]. rewrite Hcalls in Hin. clear Hcalls.
  unfold summary, joined, calls_of, script_calls in Hin.
  repeat case_match; simplify_eq; cbn [snd take] in Hin;
    decompose_list_elem_of; simplify_eq.
  all: split; [done|]; do 2 eexists; repeat split; eassumption.
Qed.

Lemma registered_metrics_of_first_run_witness :
  "id-0" = "id-0"
  /\ exists auc accuracy,
       metrics good_fate !! "AUC" = Some auc
       /\ metrics good_fate !! "Accuracy" = Some accuracy
       /\ [("AUC", 0.875%float); ("Accuracy", 0.75%float)]
          = [("AUC", auc); ("Accuracy", accuracy)]
       /\ "outputs/diabetes_model.pkl" = "outputs/diabetes_model.pkl"
       /\ "diabetes_model" = "diabetes_model".
Proof.
  apply (registered_metrics_of_first_run small_world "id-0"
           {| model_path := "outputs/diabetes_model.pkl";
              model_name := "diabetes_model";
              tags := [("Training context", "Script")];
              properties := [("AUC", 0.875%float); ("Accuracy", 0.75%float)] |}).
  vm_compute. here_or_further.
Defined.

(** X5.  The wait after the submission has no deadline: when the run never
    reaches a terminal status, the script sits in [wait_for_completion], its
    seventh call, and makes no call after it; the poll loop without a
    timeout gives no answer however many rounds it is given. *)
Theorem first_wait_has_no_deadline w (ws_name : string) :
  workspace_name (env w) = Some ws_name ->
  "experiment_env" ∈ environments (env w) ->
  "diabetes dataset" ∈ datasets (env w) ->
  (forall t, terminal (status_at (fates (env w) (created (platform w))) t)
             = false) ->
  fst (pipeline_script w) = Blocked
  /\ last (without_prints (events pipeline_script w))
     = Some (WaitForCompletion (fresh_id (env w) (created (platform w)))
               true None)
  /\ length (without_prints (events pipeline_script w)) = 7
  /\ forall fuel,
       poll (status_at (fates (env w) (created (platform w)))) None fuel 0
       = None.
Proof.
  intros Hws Henv Hds Hrun. destruct (script_run w) as [Hend Hcalls].
  rewrite Hend, Hcalls. unfold summary, joined. rewrite Hws.
  rewrite (bool_decide_eq_true_2 _ Henv), (bool_decide_eq_true_2 _ Hds).
  rewrite (proj2 (wait_blocked _) Hrun). cbn [negb fst snd].
  repeat split. intros fuel. by apply poll_never.
Qed.

Lemma first_wait_has_no_deadline_witness :
  fst (pipeline_script stuck_world) = Blocked
  /\ last (without_prints (events pipeline_script stuck_world))
     = Some (WaitForCompletion "id-0" true None)
  /\ length (without_prints (events pipeline_script stuck_world)) = 7
  /\ forall fuel, poll (status_at never_finishing) None fuel 0 = None.
Proof.
  apply (first_wait_has_no_deadline stuck_world "ml-sdk").
  - reflexivity.
  - cbn. set_solver.
  - cbn. set_solver.
  - intros t. reflexivity.
Defined.

(** X6.  Both waits of the script are called with [show_output=True] and
    without a timeout; in a run that reaches the last statement they are the
    7th and the 19th call, the second one on the run that is returned. *)
Theorem waits_pass_no_timeout w :
  Forall (fun e =>
            match e with
            | WaitForCompletion _ show_output timeout_seconds =>
                show_output = true /\ timeout_seconds = None
            | _ => True
            end) (events pipeline_script w)
  /\ (forall x, fst (pipeline_script w) = Returned x ->
        exists run0,
          without_prints (events pipeline_script w) !! 6
            = Some (WaitForCompletion run0 true None)
          /\ without_prints (events pipeline_script w) !! 18
             = Some (WaitForCompletion x true None)).
Proof.
  split.
  - apply all_calls; [done|].
    unfold calls_of, script_calls. by repeat constructor.
  - intros x Hx. destruct (returned_calls w x Hx) as [-> ->].
    by eexists.
Qed.

(** X8.  Lines 231 to 233 on their own: when the workspace has no
    experiment of that name, [ws.experiments.get] gives [None] and
    [get_runs] fails with an [AttributeError]; when the experiment has no
    run, element 0 fails with an [IndexError] after the runs were listed;
    otherwise the details of the newest run are fetched. *)
Theorem latest_run_lookup w :
  match experiments (platform w) !! experiment_name with
  | None =>
      fst (latest w) = Raised (AttributeError "get_runs")
      /\ events latest w = [ExperimentsGet experiment_name]
  | Some [] =>
      fst (latest w) = Raised IndexError
      /\ events latest w
         = [ExperimentsGet experiment_name; GetRuns experiment_name]
  | Some (newest :: _) =>
      fst (latest w) = Returned newest
      /\ events latest w
         = [ExperimentsGet experiment_name; GetRuns experiment_name;
            GetDetails newest]
  end.
Proof.
  unfold events. to_wp latest w.
  destruct (experiments (platform w) !! experiment_name) as [[|newest older]|]
    eqn:Hruns.
  all: repeat (pipeline_step; rewrite ?Hruns).
  all: simplify_eq/=.
  all: rewrite <- ?app_assoc, ?drop_app_length; done.
Qed.

(** X9.  The schedule is created for the pipeline published from the first
    run: its pipeline identity is the one whose endpoint the script has
    posted to with the credentials of the workspace, it is named
    'weekly-diabetes-training', and its recurrence is the well-formed weekly
    one of lines 211 to 216.  By then the first run has been submitted with
    [regenerate_outputs=True], waited for and published. *)
Theorem schedule_of_published_pipeline w (s : schedule) :
  ScheduleCreate s ∈ events pipeline_script w ->
  schedule_name s = "weekly-diabetes-training"
  /\ schedule_recurrence s = recurrence
  /\ well_formed (schedule_recurrence s) = true
  /\ (exists run0,
        PublishPipeline run0 "diabetes-training-pipeline"
          "Trains diabetes model" "1.0" ∈ events pipeline_script w
        /\ Submit experiment_name
             (pipeline_steps "diabetes dataset" "experiment_env") true
             ∈ events pipeline_script w
        /\ WaitForCompletion run0 true None ∈ events pipeline_script w)
  /\ Post (endpoint_of (pipeline_id s)) (auth_header (env w))
       (JObj [("ExperimentName", JStr experiment_name)])
       ∈ events pipeline_script w.
Proof.
  intros Hin.
  assert (Hsub : forall e, e ∈ without_prints (events pipeline_script w) ->
                           e ∈ events pipeline_script w)
    by apply without_prints_subseteq.
  apply without_prints_elem in Hin as [[text [=]]|Hin].
  destruct (script_run w) as [_ Hcalls]. rewrite Hcalls in Hin, Hsub.
  clear Hcalls. unfold summary, joined, calls_of, script_calls in Hin, Hsub.
  repeat case_match; simplify_eq; cbn [snd take] in Hin, Hsub;
    decompose_list_elem_of; simplify_eq.
  all: repeat split; try (eexists; repeat split); apply Hsub; here_or_further.
Qed.

Lemma schedule_of_published_pipeline_witness :
  Post (endpoint_of "id-1") [("Authorization", "Bearer token")]
    (JObj [("ExperimentName", JStr experiment_name)])
    ∈ events pipeline_script small_world.
Proof.
  apply (schedule_of_published_pipeline small_world
           {| schedule_name := "weekly-diabetes-training";
              description := "Based on time";
              pipeline_id := "id-1";
              schedule_experiment_name := "mslearn-diabetes-pipeline";
              schedule_recurrence := recurrence |}).
  vm_compute. here_or_further.
Defined.

(** X10.  [get_metrics()['AUC']] and [get_metrics()['Accuracy']] are plain
    dictionary lookups, made in this order: when the first run succeeds and
    has not logged both metrics, the script ends with a [KeyError] on the
    first one missing, 'AUC' after one call of [get_metrics] and 'Accuracy'
    after two, the logs having been downloaded; no model is registered and
    no pipeline is published. *)
Theorem missing_metric_registers_nothing w (ws_name : string) (k : nat) :
  let first := fates (env w) (created (platform w)) in
  workspace_name (env w) = Some ws_name ->
  "experiment_env" ∈ environments (env w) ->
  "diabetes dataset" ∈ datasets (env w) ->
  finishes first = Some (k, Succeeded) ->
  metrics first !! "AUC" = None \/ metrics first !! "Accuracy" = None ->
  fst (pipeline_script w)
  = Raised (KeyError match metrics first !! "AUC" with
                     | None => "AUC"
                     | Some _ => "Accuracy"
                     end)
  /\ length (without_prints (events pipeline_script w))
     = match metrics first !! "AUC" with None => 11 | Some _ => 12 end
  /\ last (without_prints (events pipeline_script w))
     = Some (GetMetrics (fresh_id (env w) (created (platform w))))
  /\ (forall run_id model,
        RegisterModel run_id model ∉ events pipeline_script w)
  /\ (forall run_id name description version,
        PublishPipeline run_id name description version
          ∉ events pipeline_script w)
  /\ GetAllLogs (fresh_id (env w) (created (platform w))) "downloaded-logs"
       ∈ events pipeline_script w.
Proof.
  intros first Hws Henv Hds Hdone Hmissing.
  assert (Hsub : forall e, e ∈ without_prints (events pipeline_script w) ->
                           e ∈ events pipeline_script w)
    by apply without_prints_subseteq.
  assert (Hnot : forall e, (forall text, e <> Print text) ->
                   e ∉ without_prints (events pipeline_script w) ->
                   e ∉ events pipeline_script w).
  { intros e Hcall Hnot Hin.
    apply without_prints_elem in Hin as [[text ->]|Hin]; [by eapply Hcall|done]. }
  destruct (script_run w) as [Hend Hcalls].
  rewrite Hend, Hcalls. rewrite Hcalls in Hsub, Hnot. clear Hend Hcalls.
  unfold summary, joined, wait, calls_of, script_calls in *.
  fold first in Hsub, Hnot |- *.
  rewrite Hws, (bool_decide_eq_true_2 _ Henv), (bool_decide_eq_true_2 _ Hds),
    Hdone in *.
  cbn [terminal negb] in *.
  destruct (metrics first !! "AUC") as [auc|] eqn:Hauc.
  - destruct Hmissing as [[=]|Hacc]. rewrite Hacc in *.
    cbn [fst snd take default from_option id] in *.
    repeat split; try (intros; apply Hnot; [done|]; intros Hin;
                       decompose_list_elem_of; done).
    apply Hsub. here_or_further.
  - cbn [fst snd take default from_option id] in *.
    repeat split; try (intros; apply Hnot; [done|]; intros Hin;
                       decompose_list_elem_of; done).
    apply Hsub. here_or_further.
Qed.

Lemma missing_metric_registers_nothing_witness :
  fst (pipeline_script unscored_world) = Raised (KeyError "Accuracy")
  /\ length (without_prints (events pipeline_script unscored_world)) = 12
  /\ last (without_prints (events pipeline_script unscored_world))
     = Some (GetMetrics "id-0")
  /\ (forall run_id model,
        RegisterModel run_id model ∉ events pipeline_script unscored_world)
  /\ (forall run_id name description version,
        PublishPipeline run_id name description version
          ∉ events pipeline_script unscored_world)
  /\ GetAllLogs "id-0" "downloaded-logs" ∈ events pipeline_script unscored_world.
Proof.
  apply (missing_metric_registers_nothing unscored_world "ml-sdk" 2).
  - reflexivity.
  - cbn. set_solver.
  - cbn. set_solver.
  - reflexivity.
  - right. reflexivity.
Defined.



End PipelineFacts.
